(** * A shallow embedding of [scraper.py]

    The scraper fetches the paginated listing pages of one site, reads the
    number of pages from the pagination control of the first answer,
    extracts one record per listing block and writes the records to a CSV
    file.  Every function of [scraper.py] is transcribed below under its own
    name; the library calls it makes ([str], [bs4], [csv], [requests],
    [logging], [sys.exit]) are transcribed as far as the program uses them.

    - Text is a [string] whose characters are the code points below 256;
      on this range the character classes of [str.isspace], [str.isdigit]
      and [int] are given exactly.
    - A parsed document is a tree of tags and strings, every string with
      the class the parser gave it.
    - A call performs effects (log records, requests, pauses, file writes),
      collected in order, and ends by returning, by [sys.exit] or by an
      exception. *)

From Stdlib Require Import List String Ascii ZArith NArith Bool Lia.
From Stdlib Require Import DecimalString.
Import ListNotations.

Local Open Scope string_scope.
Local Open Scope list_scope.

(* ================================================================== *)
(** ** Python strings *)

Module Str.

Definition ord (c : ascii) : N := N_of_ascii c.

(** [c.isspace()] for a code point below 256: TAB, LF, VT, FF, CR, the
    four separators FS GS RS US, SPACE, NEL and NO-BREAK SPACE. *)
Definition isspace_char (c : ascii) : bool :=
  existsb (N.eqb (ord c)) [9; 10; 11; 12; 13; 28; 29; 30; 31; 32; 133; 160]%N.

(** The decimal characters (category Nd) below 256 are [0]..[9]. *)
Definition isdecimal_char (c : ascii) : bool :=
  ((48 <=? ord c) && (ord c <=? 57))%N.

(** [c.isdigit()]: the decimal characters and the characters whose
    numeric type is Digit; below 256 these are the superscripts
    two (178), three (179) and one (185). *)
Definition isdigit_char (c : ascii) : bool :=
  isdecimal_char c || existsb (N.eqb (ord c)) [178; 179; 185]%N.

Fixpoint all_chars (p : ascii -> bool) (s : string) : bool :=
  match s with
  | EmptyString => true
  | String c s' => p c && all_chars p s'
  end.

(** [s.isdigit()]: at least one character and all of them digits. *)
Definition isdigit (s : string) : bool :=
  match s with
  | EmptyString => false
  | String _ _ => all_chars isdigit_char s
  end.

Definition digit_value (c : ascii) : Z := Z.of_N (ord c) - 48.

(** The digits of an integer literal as [int] reads them: decimal
    characters, with single underscores allowed between two digits. *)
Fixpoint digits (acc : Z) (after_digit : bool) (s : string) : option Z :=
  match s with
  | EmptyString => if after_digit then Some acc else None
  | String c s' =>
      if isdecimal_char c then digits (10 * acc + digit_value c) true s'
      else if (ord c =? 95)%N then
             if after_digit then digits acc false s' else None
      else None
  end.

Fixpoint lstrip (s : string) : string :=
  match s with
  | EmptyString => EmptyString
  | String c s' => if isspace_char c then lstrip s' else s
  end.

(** [rstrip] keeps a character when it is not a space or when something
    is left after it. *)
Fixpoint rstrip (s : string) : string :=
  match s with
  | EmptyString => EmptyString
  | String c s' =>
      match rstrip s' with
      | EmptyString => if isspace_char c then EmptyString else String c EmptyString
      | r => String c r
      end
  end.

(** [s.strip()] *)
Definition strip (s : string) : string := rstrip (lstrip s).

(** The number of decimal characters of a text. *)
Fixpoint count_decimal (s : string) : N :=
  match s with
  | EmptyString => 0%N
  | String c s' => ((if isdecimal_char c then 1 else 0) + count_decimal s')%N
  end.

(** [sys.int_info.default_max_str_digits]: the interpreter refuses to
    convert a text of more digits; the program leaves the limit at its
    default. *)
Definition max_str_digits : N := 4300%N.

(** [int(s)] in base ten: surrounding whitespace is dropped, one sign is
    allowed, and a text of more than [max_str_digits] digits is refused
    (the sign and the underscores are not counted); [None] stands for
    [ValueError]. *)
Definition int (s : string) : option Z :=
  if (max_str_digits <? count_decimal (strip s))%N then None
  else
    match strip s with
    | EmptyString => None
    | String c r =>
        if (ord c =? 43)%N then digits 0 false r                        (* + *)
        else if (ord c =? 45)%N then option_map Z.opp (digits 0 false r) (* - *)
        else digits 0 false (String c r)
    end.

(** [s.split()]: the maximal runs of characters that are not spaces.
    [word] is the run being read. *)
Fixpoint split_from (word : string) (s : string) : list string :=
  match s with
  | EmptyString =>
      match word with EmptyString => [] | _ => [word] end
  | String c s' =>
      if isspace_char c then
        match word with
        | EmptyString => split_from EmptyString s'
        | _ => word :: split_from EmptyString s'
        end
      else split_from (word ++ String c EmptyString) s'
  end.

Definition split (s : string) : list string := split_from EmptyString s.

(** [sep.join(parts)] *)
Fixpoint join (sep : string) (parts : list string) : string :=
  match parts with
  | [] => EmptyString
  | [p] => p
  | p :: rest => p ++ sep ++ join sep rest
  end.

End Str.

(* ================================================================== *)
(** ** Parsed documents (bs4) *)

Module Soup.

(** The class the parser gives a string of the document: a plain
    [NavigableString], or one of its subclasses. *)
Inductive string_class : Type :=
| PlainString
| CData
| Comment
| Declaration
| Doctype
| ProcessingInstruction
| Script                  (* a string inside a script tag *)
| Stylesheet              (* a string inside a style tag *)
| TemplateString          (* a string inside a template tag *)
| RubyTextString          (* a string inside an rt tag *)
| RubyParenthesisString   (* a string inside an rp tag *).

Definition class_code (c : string_class) : N :=
  match c with
  | PlainString => 0 | CData => 1 | Comment => 2 | Declaration => 3
  | Doctype => 4 | ProcessingInstruction => 5 | Script => 6
  | Stylesheet => 7 | TemplateString => 8 | RubyTextString => 9
  | RubyParenthesisString => 10
  end%N.

Definition class_in (c : string_class) (types : list string_class) : bool :=
  existsb (fun c' => N.eqb (class_code c) (class_code c')) types.

(** A page element is a string of the document, with its class, or a tag
    with its name, the values of its [class] attribute and its
    children. *)
#[warnings="-register-all"] Inductive PageElement : Type :=
| NavigableString (cls : string_class) (s : string)
| Tag (name : string) (class_ : list string) (contents : list PageElement).

(** [e.descendants]: the elements below [e], in document order. *)
Fixpoint descendants (e : PageElement) : list PageElement :=
  match e with
  | NavigableString _ _ => []
  | Tag _ _ contents => flat_map (fun c => c :: descendants c) contents
  end.

(** The test behind [find(name, class_)]: a tag of that name which,
    when a class is asked for, carries it among its classes. *)
Definition matches (name : string) (class_ : option string)
           (e : PageElement) : bool :=
  match e with
  | NavigableString _ _ => false
  | Tag n classes _ =>
      String.eqb n name &&
      match class_ with
      | None => true
      | Some c => existsb (String.eqb c) classes
      end
  end.

(** [e.find_all(name, class_)] *)
Definition find_all (name : string) (class_ : option string)
           (e : PageElement) : list PageElement :=
  filter (matches name class_) (descendants e).

(** [e.find(name, class_)]: the first match, [None] without one. *)
Definition find (name : string) (class_ : option string)
           (e : PageElement) : option PageElement :=
  hd_error (find_all name class_ e).

(** [tag.interesting_string_types]: the classes of the strings that
    count as the text of a tag of this name.  For most tags these are
    the plain strings and the CDATA sections; a script, style, template,
    rt or rp tag counts the strings of its own class only. *)
Definition interesting_string_types (name : string) : list string_class :=
  if String.eqb name "script" then [Script]
  else if String.eqb name "style" then [Stylesheet]
  else if String.eqb name "template" then [TemplateString]
  else if String.eqb name "rt" then [RubyTextString]
  else if String.eqb name "rp" then [RubyParenthesisString]
  else [PlainString; CData].

(** A string with its surrounding whitespace removed, dropped when
    nothing is left. *)
Definition stripped (s : string) : list string :=
  match Str.strip s with
  | EmptyString => []
  | s' => [s']
  end.

(** One element below a tag as [get_text] takes it: a string of one of
    the classes [types], stripped when asked and then dropped when
    empty. *)
Definition string_piece (types : list string_class) (strip : bool)
           (e : PageElement) : list string :=
  match e with
  | NavigableString cls s =>
      if class_in cls types then
        if strip then stripped s else [s]
      else []
  | Tag _ _ _ => []
  end.

(** [e._all_strings(strip)].  Called on a string, it gives the string
    itself when it is plain or CDATA and not empty. *)
Definition all_strings (strip : bool) (e : PageElement) : list string :=
  match e with
  | NavigableString cls s =>
      if class_in cls [PlainString; CData] then
        match (if strip then Str.strip s else s) with
        | EmptyString => []
        | s' => [s']
        end
      else []
  | Tag name _ _ =>
      flat_map (string_piece (interesting_string_types name) strip)
               (descendants e)
  end.

(** [e.get_text(strip=...)]; [e.text] is [get_text false e]. *)
Definition get_text (strip : bool) (e : PageElement) : string :=
  Str.join EmptyString (all_strings strip e).

Definition text (e : PageElement) : string := get_text false e.

End Soup.

(* ================================================================== *)
(** ** Effects: what a call does and how it ends *)

Module Py.

(** The exceptions the program can meet; all derive from [Exception]. *)
Inductive exn : Type :=
| AttributeError                   (* attribute access on None *)
| ValueError
| IndexError
| HTTPError (status_code : Z)      (* requests.exceptions.HTTPError *)
| RequestException (what : string) (* connection error, timeout, ... *)
| ParserRejectedMarkup             (* bs4: markup the parser cannot read *).

(** [SystemExit] is not an [Exception]: no handler of the program
    catches it, so [Exits code] ends the process with that status. *)
Inductive outcome (A : Type) : Type :=
| Returns (a : A)
| Exits (code : Z)
| Raises (e : exn).
Arguments Returns {A} a.
Arguments Exits {A} code.
Arguments Raises {A} e.

(** A record: the keys in insertion order, with their values. *)
Definition dict : Type := list (string * string).

Inductive level : Type := INFO | ERROR.

(** The log lines of the program, one constructor per format string. *)
Inductive message : Type :=
| Opening_webpage (url : string)
| HTTP_error_occured (http_err : exn)
| Max_page_number_is (max_number : Z)
| Appended (car_dict : dict)
| Error_in_function_get_car_attribute (e : exn)
| Data_has_been_inserted_into_file (filename : string)
| Failed_to_retrieve_initial_data
| Failed_to_retrieve_data_for_webpage (i : Z)
| Completed_scraping_in_page (i : Z)
| No_car_data_collected
| Unhandled (e : exn).

Inductive event : Type :=
| Log (lvl : level) (msg : message)
| Get (url : string)                        (* requests.get(url, ...) *)
| Sleep (seconds : Z)                       (* time.sleep *)
| Open (filename : string)                  (* open(filename, 'w') *)
| Writerow (filename : string) (row : list string).

Definition M (A : Type) : Type := list event * outcome A.

Definition ret {A} (a : A) : M A := ([], Returns a).

Definition bind {A B} (m : M A) (k : A -> M B) : M B :=
  match m with
  | (t, Returns a) => let (t', r) := k a in (t ++ t', r)
  | (t, Exits code) => (t, Exits code)
  | (t, Raises e) => (t, Raises e)
  end.

Definition emit (ev : event) : M unit := ([ev], Returns tt).
Definition raise {A} (e : exn) : M A := ([], Raises e).
Definition sys_exit {A} (code : Z) : M A := ([], Exits code).

(** [try: body  except Exception as e: handler e] *)
Definition try_except {A} (body : M A) (handler : exn -> M A) : M A :=
  match body with
  | (t, Raises e) => let (t', r) := handler e in (t ++ t', r)
  | _ => body
  end.

(** [try: body  except HTTPError as http_err: handler http_err] *)
Definition try_except_HTTPError {A} (body : M A) (handler : exn -> M A) : M A :=
  match body with
  | (t, Raises (HTTPError c)) =>
      let (t', r) := handler (HTTPError c) in (t ++ t', r)
  | _ => body
  end.

Definition logging_info (msg : message) : M unit := emit (Log INFO msg).
Definition logging_error (msg : message) : M unit := emit (Log ERROR msg).

Definition trace {A} (m : M A) : list event := fst m.
Definition result {A} (m : M A) : outcome A := snd m.

(** A call that performs no event of the kind [p]. *)
Definition silent (p : event -> bool) {A} (m : M A) : Prop :=
  Forall (fun ev => p ev = false) (fst m).

End Py.

Declare Scope py_scope.
Delimit Scope py_scope with py.
Notation "x <- m ;; k" := (Py.bind m (fun x => k))
  (at level 61, m at next level, right associativity) : py_scope.
Notation "m ;; k" := (Py.bind m (fun _ => k))
  (at level 61, right associativity) : py_scope.

(* ================================================================== *)
(** ** The program *)

Module Scraper.
Import Soup Py.
Local Open Scope py_scope.
Local Open Scope Z_scope.

(** A response whose body the parser reads: the status line and the
    document [BeautifulSoup(response.text, 'html.parser')] makes of the
    body. *)
Record Response : Type :=
  { status_code : Z; document : PageElement }.

(** What a request meets: [requests.get] returns a response, whose body
    the parser reads ([Answer]) or rejects ([Rejected], with the status
    of the response), or it raises one of its transport exceptions, none
    of which is an [HTTPError] ([Failure]). *)
Inductive reply : Type :=
| Answer (response : Response)
| Rejected (status_code : Z)
| Failure (what : string).

(** [response.status_code] of the response [requests.get] returned. *)
Definition status (r : reply) : Z :=
  match r with
  | Answer response => status_code response
  | Rejected code => code
  | Failure _ => 0
  end.

(** [dict[key] = value]: an existing key keeps its place. *)
Fixpoint setitem (d : dict) (key value : string) : dict :=
  match d with
  | [] => [(key, value)]
  | (k, v) :: d' =>
      if String.eqb k key then (k, value) :: d'
      else (k, v) :: setitem d' key value
  end.

(** [dict.get(key)] *)
Fixpoint get (d : dict) (key : string) : option string :=
  match d with
  | [] => None
  | (k, v) :: d' => if String.eqb k key then Some v else get d' key
  end.

(** [list(dict.keys())] *)
Definition keys (d : dict) : list string := map fst d.

(** [str(n)] for an integer *)
Definition str (n : Z) : string := NilZero.string_of_int (Z.to_int n).

(** [range(a, b)] *)
Definition range (a b : Z) : list Z :=
  map (fun k => a + Z.of_nat k) (seq 0 (Z.to_nat (b - a))).

(** [max(l)] for a list with first element [x] *)
Definition max_list (x : Z) (l : list Z) : Z := fold_left Z.max l x.

(** [int(s)] as a call *)
Definition int (s : string) : M Z :=
  match Str.int s with
  | Some n => ret n
  | None => raise ValueError
  end.

(** [o.get_text(strip=True)] where [o] is the result of a [find]:
    on [None] the attribute access raises. *)
Definition get_text_strip (o : option PageElement) : M string :=
  match o with
  | Some e => ret (get_text true e)
  | None => raise AttributeError
  end.

(** [response.raise_for_status()] *)
Definition raise_for_status (response : reply) : M unit :=
  if (400 <=? status response) && (status response <? 600)
  then raise (HTTPError (status response))
  else ret tt.

(** [BeautifulSoup(response.text, 'html.parser')]: the document, or the
    exception of the parser for a body it rejects.  ([requests_get]
    returns no [Failure], so that the last case is never met.) *)
Definition BeautifulSoup (response : reply) : M PageElement :=
  match response with
  | Answer response => ret (document response)
  | Rejected _ => raise ParserRejectedMarkup
  | Failure _ => raise ParserRejectedMarkup
  end.

Definition base_url : string := "https://www.carsome.my/buy-car/perodua/myvi".

Definition url_of (page_number : option Z) : string :=
  match page_number with
  | Some n => (base_url ++ "?pageNo=" ++ str n)%string
  | None => base_url
  end.

Section Run.

(** The site, as the requests of one run see it, and the reading of
    the clock in the format [%Y%m%d%H%M%S]. *)
Variable site : string -> reply.
Variable now : string.

Definition requests_get (url : string) : M reply :=
  emit (Get url) ;;
  match site url with
  | Failure what => raise (RequestException what)
  | response => ret response
  end.

(** [get_html], lines 14-40.  The value returned is a Python object
    reference: [Some] of a document, [None] for Python's [None]. *)
Definition get_html (page_number : option Z) : M (option PageElement) :=
  let url := url_of page_number in
  response <-
    try_except_HTTPError
      (response <- requests_get url ;;
       raise_for_status response ;;
       logging_info (Opening_webpage url) ;;
       ret response)
      (fun http_err =>
         logging_error (HTTP_error_occured http_err) ;;
         sys_exit 1) ;;
  car_html <- BeautifulSoup response ;;
  ret (Some car_html).

(** The loop of [get_page_number_list], lines 55-58. *)
Fixpoint page_number_loop (items : list PageElement) (page_numbers : list Z)
  : M (list Z) :=
  match items with
  | [] => ret page_numbers
  | item :: rest =>
      match find "button" None item with
      | Some button =>
          if Str.isdigit (text button) then
            n <- int (text button) ;;
            page_number_loop rest (page_numbers ++ [n])
          else page_number_loop rest page_numbers
      | None => page_number_loop rest page_numbers
      end
  end.

(** [get_page_number_list], lines 43-59 *)
Definition get_page_number_list (car_html : PageElement) : M (list Z) :=
  let page_number := find_all "li" (Some "mod-pagination__item") car_html in
  page_number_loop page_number [].

(** [get_max_page_number], lines 62-74 *)
Definition get_max_page_number (page_number_list : list Z) : M Z :=
  let max_number :=
    match page_number_list with
    | x :: l => max_list x l
    | [] => 1
    end in
  logging_info (Max_page_number_is max_number) ;;
  ret max_number.

(** [get_car_list], lines 77-88 *)
Definition get_car_list (car_webpage : PageElement) : list PageElement :=
  find_all "div" (Some "mod-b-card__footer") car_webpage.

(** [spans[k].get_text(strip=True) if len(spans) > k else 'None'] *)
Definition span_text (spans : list PageElement) (k : nat) : string :=
  match nth_error spans k with
  | Some span => get_text true span
  | None => "None"
  end.

(** [get_car_attribute], lines 91-121 *)
Definition get_car_attribute (item : PageElement) : M dict :=
  try_except
    (let car_dict : dict := [] in
     title <- get_text_strip (find "a" (Some "mod-b-card__title") item) ;;
     let car_name := Str.split title in
     let car_name_joined := Str.join " " car_name in
     let car_dict := setitem car_dict "car_name" car_name_joined in
     let car_mileage := find "div" (Some "mod-b-card__car-other") item in
     let car_dict :=
       match car_mileage with
       | Some car_mileage =>
           let spans := find_all "span" None car_mileage in
           let car_dict := setitem car_dict "car_mileage" (span_text spans 0) in
           let car_dict := setitem car_dict "car_transmission" (span_text spans 1) in
           setitem car_dict "car_location" (span_text spans 2)
       | None => car_dict
       end in
     price <- get_text_strip (find "div" (Some "mod-card__price__total") item) ;;
     let car_dict := setitem car_dict "car_price" price in
     instalment <- get_text_strip (find "div" (Some "mod-tooltipMonthPay") item) ;;
     let car_dict := setitem car_dict "car_monthly_instalment" instalment in
     logging_info (Appended car_dict) ;;
     ret car_dict)
    (fun e =>
       logging_error (Error_in_function_get_car_attribute e) ;;
       sys_exit 1).

(** [DictWriter.writerow(row)] with the defaults [restval=''] and
    [extrasaction='raise']. *)
Definition writerow (filename : string) (fieldnames : list string)
           (row : dict) : M unit :=
  if forallb (fun k => existsb (String.eqb k) fieldnames) (keys row)
  then emit (Writerow filename
               (map (fun k => match get row k with
                              | Some v => v
                              | None => ""%string
                              end) fieldnames))
  else raise ValueError.

Fixpoint writerows (filename : string) (fieldnames : list string)
         (rows : list dict) : M unit :=
  match rows with
  | [] => ret tt
  | row :: rest =>
      writerow filename fieldnames row ;;
      writerows filename fieldnames rest
  end.

(** [save_list_to_csv], lines 124-144 *)
Definition save_list_to_csv (list_of_car : list dict) (filename : string)
  : M unit :=
  first <- match list_of_car with
           | d :: _ => ret d
           | [] => raise IndexError
           end ;;
  let fieldnames := keys first in
  emit (Open filename) ;;
  emit (Writerow filename fieldnames) ;;
  writerows filename fieldnames list_of_car ;;
  logging_info (Data_has_been_inserted_into_file filename).

(** [get_date_timestamp], lines 147-156 *)
Definition get_date_timestamp : string := now.

(** The inner loop of [main], lines 179-180. *)
Fixpoint car_loop (car_data_html : list PageElement)
         (car_attributes : list dict) : M (list dict) :=
  match car_data_html with
  | [] => ret car_attributes
  | car :: rest =>
      d <- get_car_attribute car ;;
      car_loop rest (car_attributes ++ [d])
  end.

(** The page loop of [main], lines 172-182. *)
Fixpoint page_loop (pages : list Z) (car_attributes : list dict)
  : M (list dict) :=
  match pages with
  | [] => ret car_attributes
  | i :: rest =>
      car_data_by_webpage <- get_html (Some i) ;;
      match car_data_by_webpage with
      | None =>
          logging_error (Failed_to_retrieve_data_for_webpage i) ;;
          page_loop rest car_attributes
      | Some car_data_by_webpage =>
          let car_data_html := get_car_list car_data_by_webpage in
          car_attributes <- car_loop car_data_html car_attributes ;;
          logging_info (Completed_scraping_in_page i) ;;
          emit (Sleep 5) ;;
          page_loop rest car_attributes
      end
  end.

(** The last statement of [main], lines 184-187. *)
Definition persist (car_attributes : list dict) (filename : string) : M unit :=
  match car_attributes with
  | _ :: _ => save_list_to_csv car_attributes filename
  | [] => logging_error No_car_data_collected
  end.

(** [main], lines 159-189 *)
Definition main : M unit :=
  try_except
    (let current_timestamp := get_date_timestamp in
     let filename := ("car_" ++ current_timestamp ++ ".csv")%string in
     let car_attributes : list dict := [] in
     car_data <- get_html None ;;
     match car_data with
     | None => logging_error Failed_to_retrieve_initial_data
     | Some car_data =>
         page_number_list <- get_page_number_list car_data ;;
         max_page_number <- get_max_page_number page_number_list ;;
         car_attributes <-
           page_loop (range 1 (max_page_number + 1)) car_attributes ;;
         persist car_attributes filename
     end)
    (fun e => logging_error (Unhandled e)).

End Run.

End Scraper.

(* ================================================================== *)
(** ** Notions used to state the properties *)

Module Notions.
Import Soup Py Scraper.
Local Open Scope Z_scope.

(** The texts of the pagination buttons of a page: for every pagination
    item, the text of its first button. *)
Definition button_texts (items : list PageElement) : list string :=
  flat_map (fun item => match find "button" None item with
                        | Some button => [text button]
                        | None => []
                        end) items.

Definition pagination_button_texts (car_html : PageElement) : list string :=
  button_texts (find_all "li" (Some "mod-pagination__item") car_html).

(** The buttons the program takes for numbers. *)
Definition numeric_texts (car_html : PageElement) : list string :=
  filter Str.isdigit (pagination_button_texts car_html).

(** A text written with the digits 0 to 9 only, at least one and no
    more of them than [int] accepts. *)
Definition decimal (s : string) : bool :=
  match s with
  | EmptyString => false
  | String _ _ =>
      Str.all_chars Str.isdecimal_char s &&
      (Str.count_decimal s <=? Str.max_str_digits)%N
  end.

(** The number a decimal text denotes. *)
Definition value (s : string) : Z :=
  match Str.int s with Some n => n | None => 0 end.

(** Pagination discovery: [get_max_page_number(get_page_number_list(page))]. *)
Definition discover (car_html : PageElement) : M Z :=
  bind (get_page_number_list car_html) get_max_page_number.

(** [m] is the greatest element of [l]. *)
Definition is_max (m : Z) (l : list Z) : Prop :=
  In m l /\ Forall (fun n => n <= m) l.

Definition title (item : PageElement) := find "a" (Some "mod-b-card__title") item.
Definition other_details (item : PageElement) := find "div" (Some "mod-b-card__car-other") item.
Definition price (item : PageElement) := find "div" (Some "mod-card__price__total") item.
Definition instalment (item : PageElement) := find "div" (Some "mod-tooltipMonthPay") item.

Definition present {A} (o : option A) : bool :=
  match o with Some _ => true | None => false end.

(** The three elements without which extraction is fatal. *)
Definition required_present (item : PageElement) : bool :=
  present (title item) && present (price item) && present (instalment item).

(** A listing block with all its parts. *)
Definition complete (item : PageElement) : bool :=
  required_present item && present (other_details item).

(** The record extraction returns for a listing block. *)
Definition record_of (item : PageElement) : dict :=
  match result (get_car_attribute item) with
  | Returns d => d
  | _ => []
  end.

(** [' '.join(text.split())] for the text of the title element *)
Definition car_name_of (title_element : PageElement) : string :=
  Str.join " " (Str.split (get_text true title_element)).

(** The three entries read from the container of details. *)
Definition details_of (container : option PageElement) : dict :=
  match container with
  | Some car_mileage =>
      let spans := find_all "span" None car_mileage in
      [("car_mileage", span_text spans 0);
       ("car_transmission", span_text spans 1);
       ("car_location", span_text spans 2)]%string
  | None => []
  end.

(** A word of a normalised name: not empty and free of whitespace. *)
Definition word (w : string) : Prop :=
  w <> EmptyString /\ Str.all_chars (fun c => negb (Str.isspace_char c)) w = true.

Definition ok_status (response : Response) : bool :=
  negb ((400 <=? status_code response) && (status_code response <? 600)).

(** The run up to the end of the page loop of [main]; what it returns
    is the list [car_attributes] as the last statement of [main] finds
    it. *)
Definition run_result (site : string -> reply) : M (list dict) :=
  bind (get_html site None) (fun car_data =>
    match car_data with
    | None => ret []
    | Some car_data =>
        bind (get_page_number_list car_data) (fun page_number_list =>
        bind (get_max_page_number page_number_list) (fun max_page_number =>
        page_loop site (range 1 (max_page_number + 1)) []))
    end).

Definition filename_of (now : string) : string := ("car_" ++ now ++ ".csv")%string.

Definition file_event (ev : event) : bool :=
  match ev with
  | Open _ | Writerow _ _ => true
  | _ => false
  end.

(** The log lines of the two branches of [main] that follow an
    [is None] test on a fetched page. *)
Definition unusable_fetch_event (ev : event) : bool :=
  match ev with
  | Log ERROR Failed_to_retrieve_initial_data => true
  | Log ERROR (Failed_to_retrieve_data_for_webpage _) => true
  | _ => false
  end.

(** An event with the name of the output file left out. *)
Definition unnamed (ev : event) : event :=
  match ev with
  | Open _ => Open EmptyString
  | Writerow _ row => Writerow EmptyString row
  | Log lvl (Data_has_been_inserted_into_file _) =>
      Log lvl (Data_has_been_inserted_into_file EmptyString)
  | _ => ev
  end.

Definition header : list string :=
  ["car_name"; "car_mileage"; "car_transmission"; "car_location";
   "car_price"; "car_monthly_instalment"]%string.

(** The output of a run: a file [filename] with the header row and
    then [rows]. *)
Definition output (t : list event) (filename : string)
           (rows : list (list string)) : Prop :=
  filter file_event t =
  Open filename :: Writerow filename header :: map (Writerow filename) rows.


(** The listing blocks the site shows on page [i]. *)
Definition listings_of (site : string -> reply) (i : Z) : list PageElement :=
  match site (url_of (Some i)) with
  | Answer response => get_car_list (document response)
  | Rejected _ => []
  | Failure _ => []
  end.

(** A file event of another name than that of the run. *)
Definition misnamed (filename : string) (ev : event) : bool :=
  match ev with
  | Open f | Writerow f _ => negb (String.eqb f filename)
  | _ => false
  end.

(** Two calls that differ in the name of the output file only. *)
Definition same_but_name {A} (m1 m2 : M A) : Prop :=
  map unnamed (fst m1) = map unnamed (fst m2) /\ snd m1 = snd m2.

(** The URLs requested, in order. *)
Definition requests (t : list event) : list string :=
  flat_map (fun ev => match ev with Get url => [url] | _ => [] end) t.

(** The pauses taken, in seconds. *)
Definition pauses (t : list event) : list Z :=
  flat_map (fun ev => match ev with Sleep n => [n] | _ => [] end) t.

(** The records logged as appended, in order. *)
Definition appended (t : list event) : list dict :=
  flat_map (fun ev => match ev with
                      | Log INFO (Appended d) => [d]
                      | _ => []
                      end) t.

(** The row [DictWriter] writes for a record: the value of every field
    name, the empty string for a key the record lacks. *)
Definition row_of (fieldnames : list string) (row : dict) : list string :=
  map (fun k => match get row k with
                | Some v => v
                | None => EmptyString
                end) fieldnames.

(** A record all of whose keys are field names. *)
Definition fits (fieldnames : list string) (row : dict) : bool :=
  forallb (fun k => existsb (String.eqb k) fieldnames) (keys row).

Definition is_get (ev : event) : bool :=
  match ev with Get _ => true | _ => false end.

Definition is_sleep (ev : event) : bool :=
  match ev with Sleep _ => true | _ => false end.

Definition is_open (ev : event) : bool :=
  match ev with Open _ => true | _ => false end.

Definition is_unhandled (ev : event) : bool :=
  match ev with Log ERROR (Unhandled _) => true | _ => false end.

Definition is_appended (ev : event) : bool :=
  match ev with Log INFO (Appended _) => true | _ => false end.

Definition is_completed (ev : event) : bool :=
  match ev with
  | Log INFO (Completed_scraping_in_page _) => true
  | _ => false
  end.

(** The pages logged as completed, in order. *)
Definition completed (t : list event) : list Z :=
  flat_map (fun ev => match ev with
                      | Log INFO (Completed_scraping_in_page i) => [i]
                      | _ => []
                      end) t.

(** [ev] is the last event of [t]. *)
Definition ends_with (t : list event) (ev : event) : Prop :=
  exists t', t = t' ++ [ev].

(** A call that, when it does not return, ends as [Qx] or [Qe] says of
    its events and of its exit status or exception. *)
Definition aborts_as (Qx : list event -> Z -> Prop)
           (Qe : list event -> exn -> Prop) {A} (m : M A) : Prop :=
  match snd m with
  | Returns _ => True
  | Exits code => Qx (fst m) code
  | Raises e => Qe (fst m) e
  end.

(** The last event of a run that exits: the error line of a fetch or of
    an extraction. *)
Definition fatal_logged (t : list event) : Prop :=
  exists e, ends_with t (Log ERROR (HTTP_error_occured e)) \/
            ends_with t (Log ERROR (Error_in_function_get_car_attribute e)).

(** The events of an extraction: the line of a record appended and the
    error line. *)
Definition extraction_event (ev : event) : bool :=
  match ev with
  | Log INFO (Appended _) => true
  | Log ERROR (Error_in_function_get_car_attribute _) => true
  | _ => false
  end.

(** The URL of the page of number [i], counted from 1. *)
Definition page_url (i : nat) : string := url_of (Some (Z.of_nat i)).

(** A stretch of events made of rows written only. *)
Definition rows_only (t : list event) : Prop :=
  Forall (fun ev => exists f row, ev = Writerow f row) t.

(** The exceptions that end the run of the model in the handler of
    [main]: that of a request, that of the parser, and [ValueError]. *)
Definition handled (e : exn) : Prop :=
  (exists what, e = RequestException what) \/ e = ParserRejectedMarkup \/
  e = ValueError.

(** The three keys a record always has. *)
Definition short_header : list string :=
  ["car_name"; "car_price"; "car_monthly_instalment"]%string.

(** The keys of the container of details, by position of the span. *)
Definition detail_keys : list string :=
  ["car_mileage"; "car_transmission"; "car_location"]%string.

End Notions.

(* ================================================================== *)
(** ** Sample pages *)

Module Samples.
Import Soup Py Scraper.
Local Open Scope Z_scope.

Definition element (name class_ s : string) : PageElement :=
  Tag name [class_] [NavigableString PlainString s].

Definition span (s : string) : PageElement :=
  Tag "span" [] [NavigableString PlainString s].

(** A listing block with a container of [details]. *)
Definition listing (name : string) (details : list string)
           (price instalment : string) : PageElement :=
  Tag "div" ["mod-b-card__footer"; "card"]%string
    [element "a" "mod-b-card__title" name;
     Tag "div" ["mod-b-card__car-other"]%string (map span details);
     element "div" "mod-card__price__total" price;
     element "div" "mod-tooltipMonthPay" instalment].

(** A listing block without the container of details. *)
Definition listing_without_details (name price instalment : string)
  : PageElement :=
  Tag "div" ["mod-b-card__footer"]%string
    [element "a" "mod-b-card__title" name;
     element "div" "mod-card__price__total" price;
     element "div" "mod-tooltipMonthPay" instalment].

(** A listing block without its title. *)
Definition listing_without_title (price instalment : string) : PageElement :=
  Tag "div" ["mod-b-card__footer"]%string
    [Tag "div" ["mod-b-card__car-other"]%string [span "45,000 km"];
     element "div" "mod-card__price__total" price;
     element "div" "mod-tooltipMonthPay" instalment].

Definition pagination (buttons : list string) : PageElement :=
  Tag "ul" ["mod-pagination"]%string
    (map (fun s => Tag "li" ["mod-pagination__item"]%string
                     [Tag "button" [] [NavigableString PlainString s]]) buttons).

Definition page (buttons : list string) (listings : list PageElement)
  : PageElement :=
  Tag "[document]" [] (pagination buttons :: listings).

Definition superscript_two : string := String (ascii_of_N 178) EmptyString.

(** The text made of [n] times the digit 1. *)
Fixpoint ones (n : nat) : string :=
  match n with
  | O => EmptyString
  | S n' => String "1" (ones n')
  end.

Definition myvi_a := listing "Myvi   1.3  X" ["45,000 km"; "Automatic"; "Selangor"]%string "RM 38,000" "RM 410/mo".
Definition myvi_b := listing "Myvi 1.5 AV" ["12,300 km"]%string "RM 51,200" "RM 553/mo".
Definition myvi_c := listing "Myvi 1.3 G" ["80,100 km"; "Manual"]%string "RM 29,900" "RM 323/mo".
Definition myvi_d := listing "Myvi 1.5 H" ["60,000 km"; "Automatic"; "Johor"]%string "RM 44,000" "RM 475/mo".
Definition myvi_e := listing "Myvi 1.3 EZ" [] "RM 25,000" "RM 270/mo".
Definition myvi_bare := listing_without_details "Myvi 1.3 X" "RM 38,000" "RM 410/mo".
Definition untitled := listing_without_title "RM 30,000" "RM 324/mo".

(** A site that answers the first request and the request for page 1
    with [page1], the request for page 2 with [page2] and any other
    one with status 404. *)
Definition serve (page1 page2 : PageElement) (url : string) : reply :=
  if String.eqb url (url_of None) then
    Answer {| status_code := 200; document := page1 |}
  else if String.eqb url (url_of (Some 1)) then
    Answer {| status_code := 200; document := page1 |}
  else if String.eqb url (url_of (Some 2)) then
    Answer {| status_code := 200; document := page2 |}
  else Answer {| status_code := 404; document := Tag "[document]" [] [] |}.

Definition two_pages : string -> reply :=
  serve (page ["1"; "2"]%string [myvi_a; myvi_b; myvi_c])
        (page ["1"; "2"]%string [myvi_d; myvi_e]).

(** The same site with the third listing of page 1 lacking its title. *)
Definition two_pages_untitled : string -> reply :=
  serve (page ["1"; "2"]%string [myvi_a; myvi_b; untitled])
        (page ["1"; "2"]%string [myvi_d; myvi_e]).


(** A site whose only page shows no listing. *)
Definition empty_site : string -> reply :=
  serve (page [] []) (page [] []).

(** A site whose second page cannot be reached. *)
Definition second_page_down (url : string) : reply :=
  if String.eqb url (url_of (Some 2)) then Failure "ConnectionError"
  else two_pages url.

(** A site whose second page answers with status 503. *)
Definition second_page_503 (url : string) : reply :=
  if String.eqb url (url_of (Some 2)) then
    Answer {| status_code := 503; document := Tag "[document]" [] [] |}
  else two_pages url.

Definition now : string := "20240519103000".

(** A listing block whose title holds an element between two strings. *)
Definition myvi_nested : PageElement :=
  Tag "div" ["mod-b-card__footer"]%string
    [Tag "a" ["mod-b-card__title"]%string
       [NavigableString PlainString "Myvi ";
        Tag "b" [] [NavigableString PlainString "1.3"];
        NavigableString PlainString " X"];
     element "div" "mod-card__price__total" "RM 38,000";
     element "div" "mod-tooltipMonthPay" "RM 410/mo"].

(** A site that answers every request with status 200 and a body the
    parser rejects. *)
Definition rejected_site (url : string) : reply := Rejected 200.

(** A site whose first answer shows the single pagination button 0 above
    one listing. *)
Definition zero_button_site : string -> reply :=
  serve (page ["0"]%string [myvi_a]) (page [] []).

End Samples.

(* ================================================================== *)
(** ** Text *)

Module StrFacts.
Import Str.
Local Open Scope Z_scope.

Lemma decimal_char_not_space (c : ascii) :
  isdecimal_char c = true -> isspace_char c = false.
Proof.
  destruct c as [[] [] [] [] [] [] [] []]; vm_compute; congruence.
Qed.

Lemma decimal_char_not_sign (c : ascii) :
  isdecimal_char c = true ->
  (ord c =? 43)%N = false /\ (ord c =? 45)%N = false.
Proof.
  destruct c as [[] [] [] [] [] [] [] []]; vm_compute; intuition congruence.
Qed.

Lemma decimal_char_value (c : ascii) :
  isdecimal_char c = true -> 0 <= digit_value c <= 9.
Proof.
  unfold isdecimal_char, digit_value; intros H.
  apply andb_true_iff in H as [H1 H2].
  apply N.leb_le in H1, H2. lia.
Qed.

Lemma decimal_char_is_digit (c : ascii) :
  isdecimal_char c = true -> isdigit_char c = true.
Proof. unfold isdigit_char; intros ->; reflexivity. Qed.

Lemma all_chars_impl (p q : ascii -> bool) (s : string) :
  (forall c, p c = true -> q c = true) ->
  all_chars p s = true -> all_chars q s = true.
Proof.
  intros Hpq; induction s as [|c s IH]; simpl; auto.
  intros H; apply andb_true_iff in H as [Hc Hs].
  rewrite (Hpq _ Hc), (IH Hs); reflexivity.
Qed.

Lemma all_chars_app (p : ascii -> bool) (s1 s2 : string) :
  all_chars p (s1 ++ s2) = all_chars p s1 && all_chars p s2.
Proof.
  induction s1 as [|c s1 IH]; simpl; auto.
  rewrite IH, andb_assoc; reflexivity.
Qed.

Lemma lstrip_no_space (s : string) :
  all_chars (fun c => negb (isspace_char c)) s = true -> lstrip s = s.
Proof.
  destruct s as [|c s]; simpl; auto.
  intros H; apply andb_true_iff in H as [Hc _].
  apply negb_true_iff in Hc; rewrite Hc; reflexivity.
Qed.

Lemma rstrip_no_space (s : string) :
  all_chars (fun c => negb (isspace_char c)) s = true -> rstrip s = s.
Proof.
  induction s as [|c s IH]; simpl; auto.
  intros H; apply andb_true_iff in H as [Hc Hs].
  apply negb_true_iff in Hc; rewrite (IH Hs), Hc.
  destruct s; reflexivity.
Qed.

Lemma strip_no_space (s : string) :
  all_chars (fun c => negb (isspace_char c)) s = true -> strip s = s.
Proof.
  intros H; unfold strip.
  rewrite (lstrip_no_space s H); apply rstrip_no_space, H.
Qed.

(** A run of decimal characters always reads as a number, and the
    number is not below the one read so far. *)
Lemma digits_decimal (s : string) :
  all_chars isdecimal_char s = true ->
  forall acc b, 0 <= acc -> s <> EmptyString \/ b = true ->
  exists v, digits acc b s = Some v /\ acc <= v.
Proof.
  induction s as [|c s IH]; simpl; intros H acc b Hacc Hne.
  - destruct Hne as [Hne | ->]; [congruence|].
    exists acc; split; [reflexivity | lia].
  - apply andb_true_iff in H as [Hc Hs]; rewrite Hc.
    pose proof (decimal_char_value c Hc) as Hv.
    destruct (IH Hs (10 * acc + digit_value c) true) as [v [Hd Hle]];
      [lia | right; reflexivity |].
    exists v; split; [exact Hd | lia].
Qed.

(** [int] succeeds on a text made of decimal characters, no more of
    them than the limit of the interpreter. *)
Lemma int_decimal (s : string) :
  s <> EmptyString -> all_chars isdecimal_char s = true ->
  (count_decimal s <=? max_str_digits)%N = true ->
  exists n, int s = Some n /\ 0 <= n.
Proof.
  intros Hne H Hlen; unfold int.
  rewrite strip_no_space.
  - apply N.leb_le in Hlen.
    replace (max_str_digits <? count_decimal s)%N with false
      by (symmetry; apply N.ltb_ge; exact Hlen).
    destruct s as [|c s]; [congruence|].
    pose proof H as H'; simpl in H'.
    apply andb_true_iff in H' as [Hc _].
    destruct (decimal_char_not_sign c Hc) as [-> ->].
    destruct (digits_decimal (String c s) H 0 false) as [v [Hd Hv]];
      [lia | left; congruence |].
    exists v; split; assumption.
  - apply all_chars_impl with (p := isdecimal_char); auto.
    intros c Hc; rewrite (decimal_char_not_space c Hc); reflexivity.
Qed.

(** What [split] returns are words: runs that are not empty and hold
    no whitespace. *)
Lemma split_from_words (s : string) :
  forall w,
    all_chars (fun c => negb (isspace_char c)) w = true ->
    Forall (fun x => x <> EmptyString /\
                     all_chars (fun c => negb (isspace_char c)) x = true)
           (split_from w s).
Proof.
  induction s as [|c s IH]; simpl; intros w Hw.
  - destruct w; constructor; [split; [congruence | exact Hw] | constructor].
  - destruct (isspace_char c) eqn:Hc.
    + destruct w.
      * apply IH; reflexivity.
      * constructor; [split; [congruence | exact Hw] | apply IH; reflexivity].
    + apply IH. rewrite all_chars_app, Hw; simpl; rewrite Hc; reflexivity.
Qed.

Lemma split_words (s : string) :
  Forall (fun x => x <> EmptyString /\
                   all_chars (fun c => negb (isspace_char c)) x = true)
         (split s).
Proof. apply split_from_words; reflexivity. Qed.

Lemma split_from_cons (w : string) (c : ascii) (s : string) :
  split_from w (String c s) =
  if isspace_char c then
    match w with
    | EmptyString => split_from EmptyString s
    | _ => w :: split_from EmptyString s
    end
  else split_from (w ++ String c EmptyString) s.
Proof. reflexivity. Qed.

Lemma split_lstrip (s : string) :
  split_from EmptyString (lstrip s) = split_from EmptyString s.
Proof.
  induction s as [|c s IH]; [reflexivity |].
  cbn [lstrip]. rewrite (split_from_cons EmptyString c s).
  destruct (isspace_char c) eqn:C; [exact IH |].
  rewrite (split_from_cons EmptyString c s), C; reflexivity.
Qed.

Lemma split_rstrip (s : string) :
  forall w, split_from w (rstrip s) = split_from w s.
Proof.
  induction s as [|c s IH]; intros w; [reflexivity |].
  cbn [rstrip]. rewrite (split_from_cons w c s).
  destruct (rstrip s) as [|a r] eqn:R.
  - destruct (isspace_char c) eqn:C.
    + rewrite <- (IH EmptyString). destruct w; reflexivity.
    + rewrite (split_from_cons w c EmptyString), C. apply IH.
  - rewrite (split_from_cons w c (String a r)).
    destruct (isspace_char c); [destruct w |]; rewrite ?IH; reflexivity.
Qed.

(** Whitespace around a text does not change its words. *)
Lemma split_strip (s : string) : split (strip s) = split s.
Proof.
  unfold split, strip. rewrite split_rstrip. apply split_lstrip.
Qed.

End StrFacts.

(* ================================================================== *)
(** ** Calls: sequencing and handlers *)

Module PyFacts.
Import Py.

Lemma bind_unfold {A B} (m : M A) (k : A -> M B) :
  bind m k =
  match snd m with
  | Returns a => (fst m ++ fst (k a), snd (k a))
  | Exits code => (fst m, Exits code)
  | Raises e => (fst m, Raises e)
  end.
Proof.
  destruct m as [t [a|code|e]]; simpl; auto.
  destruct (k a); reflexivity.
Qed.

Lemma bind_returns {A B} (m : M A) (k : A -> M B) t a :
  m = (t, Returns a) -> bind m k = (t ++ fst (k a), snd (k a)).
Proof. intros ->; rewrite bind_unfold; reflexivity. Qed.

Lemma bind_exits {A B} (m : M A) (k : A -> M B) t code :
  m = (t, Exits code) -> bind m k = (t, Exits code).
Proof. intros ->; reflexivity. Qed.

Lemma bind_raises {A B} (m : M A) (k : A -> M B) t e :
  m = (t, Raises e) -> bind m k = (t, Raises e).
Proof. intros ->; reflexivity. Qed.

Lemma try_except_unfold {A} (m : M A) (h : exn -> M A) :
  try_except m h =
  match snd m with
  | Raises e => (fst m ++ fst (h e), snd (h e))
  | _ => m
  end.
Proof.
  destruct m as [t [a|code|e]]; simpl; auto.
  destruct (h e); reflexivity.
Qed.

Lemma pair_eta {A} (m : M A) : m = (fst m, snd m).
Proof. destruct m; reflexivity. Qed.

Section Traces.
(** Events of a kind [p] that a call does not perform. *)
Variable p : event -> bool.

Lemma silent_ret {A} (a : A) : silent p (ret a).
Proof. constructor. Qed.

Lemma silent_raise {A} (e : exn) : silent p (@raise A e).
Proof. constructor. Qed.

Lemma silent_sys_exit {A} (code : Z) : silent p (@sys_exit A code).
Proof. constructor. Qed.

Lemma silent_emit (ev : event) : p ev = false -> silent p (emit ev).
Proof. intros H; repeat constructor; exact H. Qed.

Lemma silent_bind {A B} (m : M A) (k : A -> M B) :
  silent p m -> (forall a, snd m = Returns a -> silent p (k a)) ->
  silent p (bind m k).
Proof.
  unfold silent; intros Hm Hk; rewrite bind_unfold.
  destruct (snd m) as [a|code|e] eqn:E; simpl; auto.
  apply Forall_app; split; [exact Hm | apply Hk; reflexivity].
Qed.

Lemma silent_try_except {A} (m : M A) (h : exn -> M A) :
  silent p m -> (forall e, silent p (h e)) -> silent p (try_except m h).
Proof.
  unfold silent; intros Hm Hh; rewrite try_except_unfold.
  destruct (snd m) as [a|code|e]; simpl; auto.
  apply Forall_app; split; [exact Hm | apply Hh].
Qed.

Lemma silent_filter {A} (m : M A) : silent p m -> filter p (fst m) = [].
Proof.
  unfold silent; induction 1 as [|ev t Hev _ IH]; simpl; auto.
  rewrite Hev; exact IH.
Qed.

Lemma silent_not_in {A} (m : M A) ev :
  silent p m -> p ev = true -> ~ In ev (fst m).
Proof.
  unfold silent; intros H Hev Hin.
  rewrite Forall_forall in H; specialize (H _ Hin); congruence.
Qed.
End Traces.

End PyFacts.

(* ================================================================== *)
(** ** Pagination discovery *)

Module Discovery.
Import Soup Py Scraper Notions PyFacts.
Local Open Scope Z_scope.

Lemma max_list_bounds (l : list Z) :
  forall x, x <= max_list x l /\ Forall (fun n => n <= max_list x l) l /\
            In (max_list x l) (x :: l).
Proof.
  unfold max_list; induction l as [|y l IH]; simpl; intros x.
  - repeat split; [lia | constructor | left; reflexivity].
  - destruct (IH (Z.max x y)) as [H1 [H2 H3]].
    split; [lia | split; [constructor; [lia | exact H2] |]].
    destruct H3 as [H3 | H3]; [| right; right; exact H3].
    destruct (Z.max_spec x y) as [[_ E] | [_ E]]; rewrite E in *; auto.
Qed.

(** [max(l)] is the greatest element of a list that is not empty. *)
Lemma max_list_is_max (x : Z) (l : list Z) : is_max (max_list x l) (x :: l).
Proof.
  destruct (max_list_bounds l x) as [H1 [H2 H3]].
  split; [exact H3 | constructor; assumption].
Qed.

(** The loop collects the values of the numeric texts, in order, as long
    as [int] reads each of them. *)
Lemma page_number_loop_returns (items : list PageElement) :
  forall page_numbers,
    (forall s, In s (filter Str.isdigit (button_texts items)) ->
               Str.int s <> None) ->
    page_number_loop items page_numbers =
    ([], Returns (page_numbers ++
                  map value (filter Str.isdigit (button_texts items)))).
Proof.
  induction items as [|item rest IH]; simpl; intros acc H.
  - rewrite app_nil_r; reflexivity.
  - destruct (find "button" None item) as [button|]; simpl in *.
    + destruct (Str.isdigit (text button)) eqn:Hd; simpl in *.
      * unfold int, value at 1.
        destruct (Str.int (text button)) as [n|] eqn:Hn.
        -- erewrite bind_returns by reflexivity.
           rewrite IH by (intros s Hs; apply H; right; exact Hs).
           simpl. rewrite <- app_assoc; reflexivity.
        -- exfalso; apply (H (text button)); auto.
      * apply IH, H.
    + apply IH, H.
Qed.

(** The loop ends with [ValueError] as soon as [int] refuses a text
    that [isdigit] accepted. *)
Lemma page_number_loop_raises (items : list PageElement) :
  forall page_numbers,
    (exists s, In s (filter Str.isdigit (button_texts items)) /\
               Str.int s = None) ->
    page_number_loop items page_numbers = ([], Raises ValueError).
Proof.
  induction items as [|item rest IH]; simpl; intros acc [s [Hin Hs]].
  - contradiction.
  - destruct (find "button" None item) as [button|]; simpl in *.
    + destruct (Str.isdigit (text button)) eqn:Hd; simpl in *.
      * unfold int.
        destruct (Str.int (text button)) as [n|] eqn:Hn.
        -- erewrite bind_returns by reflexivity.
           destruct Hin as [<- | Hin]; [congruence|].
           rewrite IH by (exists s; auto). reflexivity.
        -- reflexivity.
      * apply IH; exists s; auto.
    + apply IH; exists s; auto.
Qed.

Lemma get_page_number_list_returns (car_html : PageElement) :
  (forall s, In s (numeric_texts car_html) -> Str.int s <> None) ->
  get_page_number_list car_html =
  ([], Returns (map value (numeric_texts car_html))).
Proof.
  intros H; unfold get_page_number_list.
  rewrite page_number_loop_returns by exact H; reflexivity.
Qed.

Lemma get_page_number_list_silent p (car_html : PageElement) :
  silent p (get_page_number_list car_html).
Proof.
  unfold get_page_number_list.
  generalize (find_all "li" (Some "mod-pagination__item"%string) car_html).
  intros items; generalize (@nil Z).
  induction items as [|item rest IH]; simpl; intros acc.
  - constructor.
  - destruct (find "button" None item) as [button|]; auto.
    destruct (Str.isdigit (text button)); auto.
    unfold int; destruct (Str.int (text button)).
    + apply silent_bind; [constructor | intros; apply IH].
    + constructor.
Qed.

Lemma decimal_int (s : string) :
  decimal s = true -> exists n, Str.int s = Some n /\ 0 <= n.
Proof.
  destruct s as [|c s]; [discriminate|].
  intros H; apply andb_true_iff in H as [H1 H2].
  apply StrFacts.int_decimal; [congruence | exact H1 | exact H2].
Qed.


(** On a page whose numeric button texts are written with the digits 0
    to 9, at most 4300 of them in one text, discovery returns 1 without
    numeric button and the greatest of their values otherwise. *)
Lemma discover_decimal (car_html : PageElement) :
  Forall (fun s => decimal s = true) (numeric_texts car_html) ->
  exists m,
    discover car_html = ([Log INFO (Max_page_number_is m)], Returns m) /\
    (numeric_texts car_html = [] -> m = 1) /\
    (numeric_texts car_html <> [] ->
     is_max m (map value (numeric_texts car_html))).
Proof.
  intros H; unfold discover.
  rewrite get_page_number_list_returns.
  - destruct (numeric_texts car_html) as [|s l] eqn:E; simpl.
    + exists 1; repeat split; auto; congruence.
    + exists (max_list (value s) (map value l)); repeat split;
        try discriminate; apply max_list_is_max.
  - intros s Hs. rewrite Forall_forall in H.
    destruct (decimal_int s (H s Hs)) as [n [Hn _]]; congruence.
Qed.

(** Numeric buttons 2, 5 and 3, with an ellipsis between them, give 5;
    a page without numeric button gives 1. *)
Example discover_2_5_3 :
  discover (Samples.page ["2"; "5"; "..."; "3"]%string []) =
  ([Log INFO (Max_page_number_is 5)], Returns 5) /\
  discover (Samples.page ["..."; ">"]%string []) =
  ([Log INFO (Max_page_number_is 1)], Returns 1).
Proof. split; reflexivity. Qed.

(** C2.  Pagination discovery is meant to return the greatest value of
    the purely numeric button texts and 1 without any.  On a page whose
    pagination button reads as the superscript two, [isdigit] accepts
    the text and [int] refuses it: discovery returns nothing, it ends
    with [ValueError], and the run stops at the handler of [main] after
    the first request. *)
Theorem discover_superscript_digit :
  let car_html := Samples.page [Samples.superscript_two] [] in
  pagination_button_texts car_html = [Samples.superscript_two] /\
  Str.isdigit Samples.superscript_two = true /\
  Str.int Samples.superscript_two = None /\
  discover car_html = ([], Raises ValueError) /\
  main (Samples.serve car_html car_html) Samples.now =
  ([Get base_url; Log INFO (Opening_webpage base_url);
    Log ERROR (Unhandled ValueError)], Returns tt).
Proof. repeat split; reflexivity. Qed.




End Discovery.

(* ================================================================== *)
(** ** Extraction of one listing block *)

Module Extraction.
Import Soup Py Scraper Notions PyFacts.
Local Open Scope Z_scope.

(** With its three required elements a listing block gives a record:
    the name, the entries of the container of details when there is
    one, the price and the instalment, in this order. *)
Lemma get_car_attribute_returns (item t p q : PageElement) :
  title item = Some t -> price item = Some p -> instalment item = Some q ->
  let d := (("car_name"%string, car_name_of t) :: details_of (other_details item))
           ++ [("car_price", get_text true p);
               ("car_monthly_instalment", get_text true q)]%string in
  get_car_attribute item = ([Log INFO (Appended d)], Returns d).
Proof.
  unfold title, price, instalment, other_details, get_car_attribute.
  intros -> -> ->.
  destruct (find "div" (Some "mod-b-card__car-other"%string) item);
    reflexivity.
Qed.

(** Without one of them extraction stops the process with status 1. *)
Lemma get_car_attribute_exits (item : PageElement) :
  required_present item = false ->
  get_car_attribute item =
  ([Log ERROR (Error_in_function_get_car_attribute AttributeError)], Exits 1).
Proof.
  unfold required_present, title, price, instalment, get_car_attribute.
  destruct (find "a" (Some "mod-b-card__title"%string) item); simpl;
    [| reflexivity].
  destruct (find "div" (Some "mod-card__price__total"%string) item); simpl;
    [| intros _; destruct (find "div" (Some "mod-b-card__car-other"%string) item);
       reflexivity].
  destruct (find "div" (Some "mod-tooltipMonthPay"%string) item); simpl;
    [discriminate |].
  intros _; destruct (find "div" (Some "mod-b-card__car-other"%string) item);
    reflexivity.
Qed.

Lemma required_present_inv (item : PageElement) :
  required_present item = true ->
  exists t p q,
    title item = Some t /\ price item = Some p /\ instalment item = Some q.
Proof.
  unfold required_present.
  destruct (title item) as [t|], (price item) as [p|],
           (instalment item) as [q|]; simpl; try discriminate.
  intros _; exists t, p, q; auto.
Qed.

(** Extraction never raises: it returns a record or exits. *)
Lemma get_car_attribute_cases (item : PageElement) :
  (required_present item = true /\
   get_car_attribute item =
   ([Log INFO (Appended (record_of item))], Returns (record_of item))) \/
  (required_present item = false /\
   get_car_attribute item =
   ([Log ERROR (Error_in_function_get_car_attribute AttributeError)], Exits 1)).
Proof.
  destruct (required_present item) eqn:E.
  - left; split; [reflexivity|].
    destruct (required_present_inv item E) as [t [p [q [Ht [Hp Hq]]]]].
    pose proof (get_car_attribute_returns item t p q Ht Hp Hq) as H.
    simpl in H. unfold record_of, result. rewrite H; reflexivity.
  - right; split; [reflexivity | apply get_car_attribute_exits, E].
Qed.

(** When the container of details is there, the record has the three
    keys, each with the text of its span or the string None. *)
Lemma record_with_details (item t c p q : PageElement) :
  title item = Some t -> other_details item = Some c ->
  price item = Some p -> instalment item = Some q ->
  let spans := find_all "span" None c in
  record_of item =
  [("car_name", car_name_of t);
   ("car_mileage", span_text spans 0);
   ("car_transmission", span_text spans 1);
   ("car_location", span_text spans 2);
   ("car_price", get_text true p);
   ("car_monthly_instalment", get_text true q)]%string.
Proof.
  intros Ht Hc Hp Hq; simpl.
  pose proof (get_car_attribute_returns item t p q Ht Hp Hq) as H.
  simpl in H. unfold record_of, result. rewrite H, Hc; reflexivity.
Qed.

Lemma span_text_cases (spans : list PageElement) (k : nat) :
  (exists span, nth_error spans k = Some span /\
                span_text spans k = get_text true span) \/
  (List.length spans <= k)%nat /\ span_text spans k = "None"%string.
Proof.
  unfold span_text; destruct (nth_error spans k) as [span|] eqn:E.
  - left; exists span; auto.
  - right; split; [apply nth_error_None, E | reflexivity].
Qed.

(** When the container is missing the record has three keys only. *)
Lemma record_without_details (item t p q : PageElement) :
  title item = Some t -> other_details item = None ->
  price item = Some p -> instalment item = Some q ->
  record_of item =
  [("car_name", car_name_of t);
   ("car_price", get_text true p);
   ("car_monthly_instalment", get_text true q)]%string.
Proof.
  intros Ht Hc Hp Hq.
  pose proof (get_car_attribute_returns item t p q Ht Hp Hq) as H.
  simpl in H. unfold record_of, result. rewrite H, Hc; reflexivity.
Qed.

(** C1.  The record is meant to hold the keys car_mileage,
    car_transmission and car_location always, with the string None for
    a missing part.  So it does when the container of details is there
    ([record_with_details]); for a listing block without the container
    the record returned has the name, the price and the instalment and
    none of the three keys. *)
Theorem get_car_attribute_without_details :
  let item := Samples.myvi_bare in
  let d := [("car_name", "Myvi 1.3 X"); ("car_price", "RM 38,000");
            ("car_monthly_instalment", "RM 410/mo")]%string in
  required_present item = true /\ other_details item = None /\
  get_car_attribute item = ([Log INFO (Appended d)], Returns d) /\
  get d "car_mileage" = None /\ get d "car_transmission" = None /\
  get d "car_location" = None.
Proof. repeat split; reflexivity. Qed.

(** A listing block with one span of details. *)
Example one_detail :
  record_of Samples.myvi_b =
  [("car_name", "Myvi 1.5 AV"); ("car_mileage", "12,300 km");
   ("car_transmission", "None"); ("car_location", "None");
   ("car_price", "RM 51,200"); ("car_monthly_instalment", "RM 553/mo")]%string.
Proof. reflexivity. Qed.

(** With [strip=True] the strings are those taken without it, each
    stripped, and dropped when nothing is left. *)
Lemma all_strings_stripped (e : PageElement) :
  all_strings true e = flat_map stripped (all_strings false e).
Proof.
  destruct e as [cls s | name classes contents]; cbn [all_strings].
  - destruct (class_in cls [PlainString; CData]); [| reflexivity].
    destruct s as [|c s]; [reflexivity |].
    cbn [flat_map]; rewrite app_nil_r; reflexivity.
  - induction (descendants (Tag name classes contents)) as [|x l IH];
      [reflexivity |].
    cbn [flat_map]. rewrite flat_map_app, IH. f_equal.
    destruct x as [cls s | ? ? ?]; cbn [string_piece]; [| reflexivity].
    destruct (class_in cls (interesting_string_types name)); [| reflexivity].
    cbn [flat_map]; rewrite app_nil_r; reflexivity.
Qed.

(** The text of an element that holds one string: with [strip=True] it
    is this string stripped. *)
Lemma single_string_text (e : PageElement) (s : string) :
  all_strings false e = [s] ->
  text e = s /\ get_text true e = Str.strip s.
Proof.
  intros H; unfold text, get_text.
  rewrite all_strings_stripped, H; split; [reflexivity |].
  cbn [flat_map]; unfold stripped.
  destruct (Str.strip s); reflexivity.
Qed.

(** C7, as stated, fails: for a title that holds an element between two
    strings, the text of the title is "Myvi 1.3 X", which split and
    joined again is itself, while the car_name of the record is
    "Myvi1.3X": the strings of the title are stripped one by one and put
    together with nothing between them. *)
Lemma car_name_of_nested_title :
  exists title_element d,
    title Samples.myvi_nested = Some title_element /\
    text title_element = "Myvi 1.3 X"%string /\
    Str.join " " (Str.split (text title_element)) = "Myvi 1.3 X"%string /\
    get_car_attribute Samples.myvi_nested =
    ([Log INFO (Appended d)], Returns d) /\
    get d "car_name" = Some "Myvi1.3X"%string /\
    get d "car_name" <> Some (Str.join " " (Str.split (text title_element))).
Proof.
  eexists; eexists.
  split; [reflexivity |].
  split; [reflexivity |].
  split; [reflexivity |].
  split; [reflexivity |].
  split; [reflexivity |].
  discriminate.
Qed.

(** C7, amended.  For a listing block with a title element, the car_name
    of the record returned is the result of [get_text(strip=True)] on the
    title, that is the strings of the title, each stripped of the
    whitespace around it, put together with nothing between them, split
    on whitespace and joined with single spaces: words that are not empty
    and hold no whitespace, one space between two of them.  For a title
    that holds one string this is the text of the title split on
    whitespace and joined with single spaces.  A record is returned when
    the price and the instalment are there too. *)
Theorem car_name_normalised (item title_element : PageElement) :
  title item = Some title_element ->
  (forall t d, get_car_attribute item = (t, Returns d) ->
               get d "car_name" =
               Some (Str.join " " (Str.split (get_text true title_element)))) /\
  get_text true title_element =
  Str.join EmptyString (flat_map stripped (all_strings false title_element)) /\
  (forall s, all_strings false title_element = [s] ->
             text title_element = s /\
             Str.join " " (Str.split (get_text true title_element)) =
             Str.join " " (Str.split (text title_element))) /\
  Forall word (Str.split (get_text true title_element)) /\
  (price item <> None -> instalment item <> None ->
   exists d, get_car_attribute item = ([Log INFO (Appended d)], Returns d)).
Proof.
  intros Ht; split; [| split; [| split; [| split]]].
  - intros t d H.
    destruct (get_car_attribute_cases item) as [[Hreq Hret] | [_ Hex]];
      [| rewrite Hex in H; discriminate].
    destruct (required_present_inv item Hreq) as [t' [p [q [Ht' [Hp Hq]]]]].
    pose proof (get_car_attribute_returns item t' p q Ht' Hp Hq) as H'.
    simpl in H'. rewrite H' in H. injection H as _ <-.
    rewrite Ht in Ht'; injection Ht' as <-.
    simpl. reflexivity.
  - unfold get_text; rewrite all_strings_stripped; reflexivity.
  - intros s Hs; destruct (single_string_text title_element s Hs) as [H1 H2].
    split; [exact H1 |].
    rewrite H1, H2, StrFacts.split_strip; reflexivity.
  - apply StrFacts.split_words.
  - intros Hp Hq.
    destruct (price item) as [p|] eqn:Ep; [| congruence].
    destruct (instalment item) as [q|] eqn:Eq; [| congruence].
    eexists; apply (get_car_attribute_returns item title_element p q Ht Ep Eq).
Qed.

Lemma car_name_normalised_witness :
  title Samples.myvi_a =
  Some (Samples.element "a" "mod-b-card__title" "Myvi   1.3  X") /\
  text (Samples.element "a" "mod-b-card__title" "Myvi   1.3  X") =
  "Myvi   1.3  X"%string /\
  forall t d, get_car_attribute Samples.myvi_a = (t, Returns d) ->
              get d "car_name" = Some "Myvi 1.3 X"%string.
Proof.
  split; [reflexivity | split; [reflexivity |]].
  exact (proj1 (car_name_normalised Samples.myvi_a _ eq_refl)).
Defined.

End Extraction.

(* ================================================================== *)
(** ** The run *)

Module Run.
Import Soup Py Scraper Notions PyFacts.
Local Open Scope Z_scope.

Lemma bind_assoc {A B C} (m : M A) (f : A -> M B) (g : B -> M C) :
  bind (bind m f) g = bind m (fun a => bind (f a) g).
Proof.
  destruct m as [t [a|code|e]]; simpl; auto.
  destruct (f a) as [t' [b|code|e]]; simpl; auto.
  destruct (g b) as [t'' r]; rewrite app_assoc; reflexivity.
Qed.

Lemma bind_ext {A B} (m : M A) (k k' : A -> M B) :
  (forall a, snd m = Returns a -> k a = k' a) -> bind m k = bind m k'.
Proof.
  destruct m as [t [a|code|e]]; simpl; auto.
  intros H; rewrite (H a eq_refl); reflexivity.
Qed.

(** *** Fetching *)

Section Fetch.
Variable site : string -> reply.

Lemma get_html_answer page_number response :
  site (url_of page_number) = Answer response ->
  ok_status response = true ->
  get_html site page_number =
  ([Get (url_of page_number);
    Log INFO (Opening_webpage (url_of page_number))],
   Returns (Some (document response))).
Proof.
  unfold get_html, requests_get, ok_status.
  intros -> H; apply negb_true_iff in H.
  cbn -[Z.leb Z.ltb url_of raise_for_status].
  unfold raise_for_status; cbn [status]; rewrite H; reflexivity.
Qed.

Lemma get_html_status_error page_number response :
  site (url_of page_number) = Answer response ->
  ok_status response = false ->
  get_html site page_number =
  ([Get (url_of page_number);
    Log ERROR (HTTP_error_occured (HTTPError (status_code response)))],
   Exits 1).
Proof.
  unfold get_html, requests_get, ok_status.
  intros -> H; apply negb_false_iff in H.
  cbn -[Z.leb Z.ltb url_of raise_for_status].
  unfold raise_for_status; cbn [status]; rewrite H; reflexivity.
Qed.

(** A body the parser rejects: the exception comes after the line that
    tells the page was opened, outside the handler of [get_html]. *)
Lemma get_html_rejected page_number code :
  site (url_of page_number) = Rejected code ->
  (400 <=? code) && (code <? 600) = false ->
  get_html site page_number =
  ([Get (url_of page_number);
    Log INFO (Opening_webpage (url_of page_number))],
   Raises ParserRejectedMarkup).
Proof.
  unfold get_html, requests_get.
  intros -> H.
  cbn -[Z.leb Z.ltb url_of raise_for_status].
  unfold raise_for_status; cbn [status]; rewrite H; reflexivity.
Qed.

Lemma get_html_rejected_status page_number code :
  site (url_of page_number) = Rejected code ->
  (400 <=? code) && (code <? 600) = true ->
  get_html site page_number =
  ([Get (url_of page_number);
    Log ERROR (HTTP_error_occured (HTTPError code))],
   Exits 1).
Proof.
  unfold get_html, requests_get.
  intros -> H.
  cbn -[Z.leb Z.ltb url_of raise_for_status].
  unfold raise_for_status; cbn [status]; rewrite H; reflexivity.
Qed.

Lemma get_html_failure page_number what :
  site (url_of page_number) = Failure what ->
  get_html site page_number =
  ([Get (url_of page_number)], Raises (RequestException what)).
Proof.
  unfold get_html, requests_get; intros ->; reflexivity.
Qed.

(** The ways a fetch ends, with the events of each. *)
Lemma get_html_cases page_number :
  let url := url_of page_number in
  (exists response,
      site url = Answer response /\ ok_status response = true /\
      get_html site page_number =
      ([Get url; Log INFO (Opening_webpage url)],
       Returns (Some (document response)))) \/
  (exists code,
      (400 <=? code) && (code <? 600) = true /\
      get_html site page_number =
      ([Get url; Log ERROR (HTTP_error_occured (HTTPError code))], Exits 1)) \/
  (exists what,
      site url = Failure what /\
      get_html site page_number = ([Get url], Raises (RequestException what))) \/
  (exists code,
      site url = Rejected code /\
      get_html site page_number =
      ([Get url; Log INFO (Opening_webpage url)], Raises ParserRejectedMarkup)).
Proof.
  intros url; subst url.
  destruct (site (url_of page_number)) as [response | code | what] eqn:E.
  - destruct (ok_status response) eqn:S.
    + left; exists response; repeat split; auto.
      apply (get_html_answer _ _ E S).
    + right; left; exists (status_code response); split.
      * unfold ok_status in S; apply negb_false_iff in S; exact S.
      * apply (get_html_status_error _ _ E S).
  - destruct ((400 <=? code) && (code <? 600)) eqn:S.
    + right; left; exists code; split; [exact S |].
      apply (get_html_rejected_status _ _ E S).
    + right; right; right; exists code; split; [reflexivity |].
      apply (get_html_rejected _ _ E S).
  - right; right; left; exists what; split; [reflexivity |].
    apply (get_html_failure _ _ E).
Qed.

Lemma get_html_not_None page_number t :
  get_html site page_number <> (t, Returns None).
Proof.
  destruct (get_html_cases page_number)
    as [[r [_ [_ H]]] | [[c [_ H]] | [[w [_ H]] | [c [_ H]]]]];
    rewrite H; congruence.
Qed.
End Fetch.

(** *** Events a run does not perform before its last statement *)

Section Silence.
Variable p : event -> bool.
Hypothesis p_get : forall url, p (Get url) = false.
Hypothesis p_info : forall msg, p (Log INFO msg) = false.
Hypothesis p_http : forall e, p (Log ERROR (HTTP_error_occured e)) = false.
Hypothesis p_extract :
  forall e, p (Log ERROR (Error_in_function_get_car_attribute e)) = false.
Hypothesis p_sleep : forall n, p (Sleep n) = false.

Variable site : string -> reply.

Lemma get_html_silent page_number : silent p (get_html site page_number).
Proof.
  destruct (get_html_cases site page_number)
    as [[r [_ [_ H]]] | [[c [_ H]] | [[w [_ H]] | [c [_ H]]]]];
    rewrite H; repeat constructor; auto.
Qed.

Lemma get_car_attribute_silent item : silent p (get_car_attribute item).
Proof.
  destruct (Extraction.get_car_attribute_cases item) as [[_ H] | [_ H]];
    rewrite H; repeat constructor; auto.
Qed.

Lemma car_loop_silent l : forall acc, silent p (car_loop l acc).
Proof.
  induction l as [|car rest IH]; simpl; intros acc.
  - constructor.
  - apply silent_bind; [apply get_car_attribute_silent | intros; apply IH].
Qed.

Lemma page_loop_silent pages : forall acc, silent p (page_loop site pages acc).
Proof.
  induction pages as [|i rest IH]; cbn [page_loop]; intros acc.
  - constructor.
  - apply silent_bind; [apply get_html_silent |].
    intros [car_html|] Hr.
    + apply silent_bind; [apply car_loop_silent | intros ca _].
      apply silent_bind; [apply silent_emit, p_info | intros _ _].
      apply silent_bind; [apply silent_emit, p_sleep | intros _ _].
      apply IH.
    + exfalso.
      apply (get_html_not_None site (Some i) (fst (get_html site (Some i)))).
      rewrite <- Hr; apply pair_eta.
Qed.

Lemma get_max_page_number_silent l : silent p (get_max_page_number l).
Proof. repeat constructor; apply p_info. Qed.

Lemma run_result_silent : silent p (run_result site).
Proof.
  unfold run_result.
  apply silent_bind; [apply get_html_silent |].
  intros [car_html|] _; [| constructor].
  apply silent_bind; [apply Discovery.get_page_number_list_silent |].
  intros l _.
  apply silent_bind; [apply get_max_page_number_silent |].
  intros m _; apply page_loop_silent.
Qed.
End Silence.

(** *** The shape of [main] *)

(** [main] is the run up to the end of the page loop, then the last
    statement on the list collected, all under the handler. *)
Lemma main_unfold (site : string -> reply) (now : string) :
  main site now =
  try_except
    (bind (run_result site) (fun car_attributes =>
       persist car_attributes (filename_of now)))
    (fun e => logging_error (Unhandled e)).
Proof.
  unfold main, run_result, get_date_timestamp. f_equal.
  rewrite bind_assoc. apply bind_ext.
  intros [car_html|] Hr.
  - rewrite bind_assoc; apply bind_ext; intros l _.
    rewrite bind_assoc; reflexivity.
  - exfalso.
    apply (get_html_not_None site None (fst (get_html site None))).
    rewrite <- Hr; apply pair_eta.
Qed.

(** How [main] ends, from how the page loop ended. *)
Lemma main_after_loop (site : string -> reply) (now : string) t car_attributes :
  run_result site = (t, Returns car_attributes) ->
  main site now =
  try_except
    (t ++ fst (persist car_attributes (filename_of now)),
     snd (persist car_attributes (filename_of now)))
    (fun e => logging_error (Unhandled e)).
Proof.
  intros H; rewrite main_unfold, (bind_returns _ _ _ _ H); reflexivity.
Qed.

Lemma main_after_exit (site : string -> reply) (now : string) t code :
  run_result site = (t, Exits code) -> main site now = (t, Exits code).
Proof. intros H; rewrite main_unfold, H; reflexivity. Qed.

Lemma main_after_exception (site : string -> reply) (now : string) t e :
  run_result site = (t, Raises e) ->
  main site now = (t ++ [Log ERROR (Unhandled e)], Returns tt).
Proof. intros H; rewrite main_unfold, H; reflexivity. Qed.

(** *** The last statement *)

Section Persist.
Variable p : event -> bool.
Variable filename : string.
Hypothesis p_info : forall msg, p (Log INFO msg) = false.
Hypothesis p_open : p (Open filename) = false.
Hypothesis p_row : forall row, p (Writerow filename row) = false.
Hypothesis p_none : p (Log ERROR No_car_data_collected) = false.

Lemma writerows_silent fieldnames rows :
  silent p (writerows filename fieldnames rows).
Proof.
  induction rows as [|row rest IH]; cbn [writerows].
  - constructor.
  - apply silent_bind; [| intros; apply IH].
    unfold writerow.
    destruct (forallb _ _); [apply silent_emit, p_row | constructor].
Qed.

Lemma persist_silent car_attributes :
  silent p (persist car_attributes filename).
Proof.
  destruct car_attributes as [|d l]; cbn [persist].
  - apply silent_emit, p_none.
  - unfold save_list_to_csv.
    apply silent_bind; [constructor | intros first _].
    apply silent_bind; [apply silent_emit, p_open | intros _ _].
    apply silent_bind; [apply silent_emit, p_row | intros _ _].
    apply silent_bind; [apply writerows_silent | intros _ _].
    apply silent_emit, p_info.
Qed.
End Persist.

(** Events that no part of [main] performs. *)
Lemma main_silent (p : event -> bool) (site : string -> reply) (now : string) :
  (forall url, p (Get url) = false) ->
  (forall msg, p (Log INFO msg) = false) ->
  (forall e, p (Log ERROR (HTTP_error_occured e)) = false) ->
  (forall e, p (Log ERROR (Error_in_function_get_car_attribute e)) = false) ->
  (forall n, p (Sleep n) = false) ->
  p (Open (filename_of now)) = false ->
  (forall row, p (Writerow (filename_of now) row) = false) ->
  p (Log ERROR No_car_data_collected) = false ->
  (forall e, p (Log ERROR (Unhandled e)) = false) ->
  silent p (main site now).
Proof.
  intros Hget Hinfo Hhttp Hextract Hsleep Hopen Hrow Hnone Hunhandled.
  rewrite main_unfold.
  apply silent_try_except.
  - apply silent_bind; [apply run_result_silent; assumption |].
    intros ca _; apply persist_silent; assumption.
  - intros e; apply silent_emit, Hunhandled.
Qed.

Lemma same_but_name_bind {A B} (m1 m2 : M A) (k1 k2 : A -> M B) :
  same_but_name m1 m2 ->
  (forall a, same_but_name (k1 a) (k2 a)) ->
  same_but_name (bind m1 k1) (bind m2 k2).
Proof.
  unfold same_but_name; intros [Ht Hr] Hk; rewrite !bind_unfold, <- Hr.
  destruct (snd m1) as [a|code|e]; simpl; auto.
  destruct (Hk a) as [Ht' Hr']; rewrite !map_app, Ht, Ht', Hr'; auto.
Qed.

Lemma same_but_name_refl {A} (m : M A) : same_but_name m m.
Proof. split; reflexivity. Qed.

Lemma writerows_same_but_name f1 f2 fieldnames rows :
  same_but_name (writerows f1 fieldnames rows) (writerows f2 fieldnames rows).
Proof.
  induction rows as [|row rest IH]; cbn [writerows].
  - apply same_but_name_refl.
  - apply same_but_name_bind; [| intros; apply IH].
    unfold writerow; destruct (forallb _ _); split; reflexivity.
Qed.

Lemma persist_same_but_name car_attributes f1 f2 :
  same_but_name (persist car_attributes f1) (persist car_attributes f2).
Proof.
  destruct car_attributes as [|d l]; cbn [persist].
  - apply same_but_name_refl.
  - unfold save_list_to_csv.
    apply same_but_name_bind; [apply same_but_name_refl | intros first].
    apply same_but_name_bind; [split; reflexivity | intros _].
    apply same_but_name_bind; [split; reflexivity | intros _].
    apply same_but_name_bind; [apply writerows_same_but_name | intros _].
    split; reflexivity.
Qed.

(** *** The loops *)

Lemma range_In (a b i : Z) : In i (range a b) <-> a <= i < b.
Proof.
  unfold range; rewrite in_map_iff; split.
  - intros [k [<- Hk]]; apply in_seq in Hk; lia.
  - intros H; exists (Z.to_nat (i - a)); split; [lia |].
    apply in_seq; lia.
Qed.

(** The inner loop appends the record of every listing block, or stops
    the process at the first block that lacks a required element. *)
Lemma car_loop_cases (l : list PageElement) :
  forall acc,
    (Forall (fun item => required_present item = true) l /\
     car_loop l acc =
     (map (fun item => Log INFO (Appended (record_of item))) l,
      Returns (acc ++ map record_of l))) \/
    (Exists (fun item => required_present item = false) l /\
     exists t, car_loop l acc = (t, Exits 1)).
Proof.
  induction l as [|car rest IH]; intros acc; cbn [car_loop].
  - left; split; [constructor | rewrite app_nil_r; reflexivity].
  - destruct (Extraction.get_car_attribute_cases car) as [[Hreq H] | [Hreq H]].
    + rewrite (bind_returns _ _ _ _ H).
      destruct (IH (acc ++ [record_of car])) as [[Hall E] | [Hex [t E]]];
        rewrite E.
      * left; split; [constructor; assumption |].
        simpl; rewrite <- app_assoc; reflexivity.
      * right; split; [right; exact Hex | eexists; reflexivity].
    + right; split; [left; exact Hreq |].
      rewrite (bind_exits _ _ _ _ H); eexists; reflexivity.
Qed.

(** When every page is served and every listing block has its required
    elements, the page loop returns the records page after page, each
    page in document order. *)
Lemma page_loop_returns (site : string -> reply) (pages : list Z) :
  (forall i, In i pages ->
             exists response,
               site (url_of (Some i)) = Answer response /\
               ok_status response = true /\
               Forall (fun item => required_present item = true)
                      (get_car_list (document response))) ->
  forall acc,
  exists t,
    page_loop site pages acc =
    (t, Returns (acc ++ flat_map (fun i => map record_of (listings_of site i))
                                 pages)).
Proof.
  induction pages as [|i rest IH]; intros H acc; cbn [page_loop].
  - exists []; rewrite app_nil_r; reflexivity.
  - destruct (H i (or_introl eq_refl)) as [response [E [S Hall]]].
    rewrite (bind_returns _ _ _ _ (get_html_answer _ _ _ E S)).
    cbn [fst snd].
    destruct (car_loop_cases (get_car_list (document response)) acc)
      as [[_ C] | [Hex _]].
    + rewrite (bind_returns _ _ _ _ C).
      destruct (IH (fun j Hj => H j (or_intror Hj))
                   (acc ++ map record_of (get_car_list (document response))))
        as [t Ht].
      cbn [bind emit logging_info fst snd app].
      rewrite Ht.
      assert (L : listings_of site i = get_car_list (document response))
        by (unfold listings_of; rewrite E; reflexivity).
      eexists. cbn [flat_map fst snd].
      rewrite L, <- app_assoc. reflexivity.
    + exfalso. apply Exists_exists in Hex as [item [Hin Hf]].
      rewrite Forall_forall in Hall. rewrite (Hall item Hin) in Hf.
      discriminate.
Qed.

(** When every page is answered, the page loop stops the process as
    soon as a page shows a listing block that lacks a required
    element. *)
Lemma page_loop_fatal (site : string -> reply) (pages : list Z)
      i response item :
  (forall j, In j pages -> exists r, site (url_of (Some j)) = Answer r) ->
  In i pages ->
  site (url_of (Some i)) = Answer response ->
  In item (get_car_list (document response)) ->
  required_present item = false ->
  forall acc, exists t, page_loop site pages acc = (t, Exits 1).
Proof.
  intros Hserved Hi E Hin Hreq.
  induction pages as [|j rest IH]; intros acc; [contradiction |].
  cbn [page_loop].
  destruct (Hserved j (or_introl eq_refl)) as [r Er].
  destruct (ok_status r) eqn:S.
  - rewrite (bind_returns _ _ _ _ (get_html_answer _ _ _ Er S)).
    cbn [fst snd].
    destruct (car_loop_cases (get_car_list (document r)) acc)
      as [[Hall C] | [_ [t C]]].
    + rewrite (bind_returns _ _ _ _ C).
      cbn [bind emit logging_info fst snd app].
      destruct Hi as [-> | Hi].
      * exfalso. rewrite E in Er; injection Er as <-.
        rewrite Forall_forall in Hall. rewrite (Hall item Hin) in Hreq.
        discriminate.
      * destruct (IH (fun k Hk => Hserved k (or_intror Hk)) Hi
                     (acc ++ map record_of (get_car_list (document r))))
          as [t Ht].
        rewrite Ht; eexists; reflexivity.
    + rewrite (bind_exits _ _ _ _ C); eexists; reflexivity.
  - rewrite (bind_exits _ _ _ _ (get_html_status_error _ _ _ Er S)).
    eexists; reflexivity.
Qed.

(** The run up to the end of the page loop, once the first answer
    came and discovery returned. *)
Lemma run_result_discovered (site : string -> reply) r0 t1 m :
  site (url_of None) = Answer r0 -> ok_status r0 = true ->
  discover (document r0) = (t1, Returns m) ->
  run_result site =
  ([Get base_url; Log INFO (Opening_webpage base_url)] ++ t1 ++
     fst (page_loop site (range 1 (m + 1)) []),
   snd (page_loop site (range 1 (m + 1)) [])).
Proof.
  intros E S D; unfold run_result.
  rewrite (bind_returns _ _ _ _ (get_html_answer _ _ _ E S)).
  cbn [url_of].
  rewrite <- (bind_assoc (get_page_number_list (document r0))
                get_max_page_number
                (fun m => page_loop site (range 1 (m + 1)) [])).
  fold (discover (document r0)).
  rewrite (bind_returns _ _ _ _ D). reflexivity.
Qed.

(** *** Writing the records *)

Lemma writerow_full filename (d : dict) :
  keys d = header ->
  writerow filename header d = ([Writerow filename (map snd d)], Returns tt).
Proof.
  destruct d as [|[k1 v1] [|[k2 v2] [|[k3 v3] [|[k4 v4] [|[k5 v5]
                [|[k6 v6] [|? ?]]]]]]]; try discriminate.
  unfold keys; simpl; intros H.
  injection H as -> -> -> -> -> ->. reflexivity.
Qed.

Lemma writerows_full filename (ds : list dict) :
  Forall (fun d => keys d = header) ds ->
  writerows filename header ds =
  (map (fun d => Writerow filename (map snd d)) ds, Returns tt).
Proof.
  induction 1 as [|d ds Hd _ IH]; cbn [writerows]; [reflexivity |].
  rewrite (bind_returns _ _ _ _ (writerow_full filename d Hd)), IH.
  reflexivity.
Qed.

Lemma filter_rows filename (ds : list dict) tail :
  filter file_event (map (fun d => Writerow filename (map snd d)) ds ++ tail) =
  map (fun d => Writerow filename (map snd d)) ds ++ filter file_event tail.
Proof.
  induction ds as [|d ds IH]; simpl; [reflexivity | rewrite IH; reflexivity].
Qed.

(** A list of records with the six keys is written as the header row
    and one row per record, in the order of the list. *)
Lemma persist_full filename (ds : list dict) :
  ds <> [] -> Forall (fun d => keys d = header) ds ->
  snd (persist ds filename) = Returns tt /\
  filter file_event (fst (persist ds filename)) =
  Open filename :: Writerow filename header ::
  map (fun d => Writerow filename (map snd d)) ds.
Proof.
  intros Hne Hall.
  destruct ds as [|d ds]; [congruence |].
  cbn [persist]; unfold save_list_to_csv.
  pose proof (Forall_inv Hall) as Hd.
  cbn [bind ret emit fst snd app]. rewrite Hd.
  rewrite (writerows_full filename (d :: ds) Hall).
  cbn [bind ret emit logging_info fst snd app filter file_event].
  split; [reflexivity |].
  rewrite (filter_rows filename (d :: ds)). simpl.
  rewrite app_nil_r; reflexivity.
Qed.

Lemma complete_record (item : PageElement) :
  complete item = true ->
  required_present item = true /\ keys (record_of item) = header.
Proof.
  unfold complete; intros H; apply andb_true_iff in H as [Hreq Hdet].
  split; [exact Hreq |].
  destruct (Extraction.required_present_inv item Hreq)
    as [t [p [q [Ht [Hp Hq]]]]].
  destruct (other_details item) as [c|] eqn:Hc; [| discriminate].
  rewrite (Extraction.record_with_details item t c p q Ht Hc Hp Hq).
  reflexivity.
Qed.

(** *** Properties of the run *)

(** C9, as stated, fails: for an answer with status 200 whose body the
    parser rejects, [get_html] neither returns a document, nor ends the
    process, nor lets a transport exception pass.  It lets the exception
    of the parser pass, after the line that tells the page was opened,
    and the run ends in the handler of [main]. *)
Lemma get_html_rejected_body :
  get_html Samples.rejected_site None =
  ([Get base_url; Log INFO (Opening_webpage base_url)],
   Raises ParserRejectedMarkup) /\
  ~ ((exists car_html,
         snd (get_html Samples.rejected_site None) = Returns (Some car_html)) \/
     (exists code, snd (get_html Samples.rejected_site None) = Exits code) \/
     (exists what,
         snd (get_html Samples.rejected_site None) =
         Raises (RequestException what))) /\
  main Samples.rejected_site Samples.now =
  ([Get base_url; Log INFO (Opening_webpage base_url);
    Log ERROR (Unhandled ParserRejectedMarkup)], Returns tt).
Proof.
  split; [reflexivity | split; [| reflexivity]].
  intros [[d H] | [[c H] | [w H]]]; discriminate H.
Qed.

(** C9, amended.  [get_html] never returns [None]: a call returns a
    parsed document, or ends the process with status 1 after a response
    with an error status, or lets an exception pass, that of the request
    when the transport failed and that of the parser when the body of the
    response is rejected.  So the two branches of [main] that follow a
    test for [None] are never taken: their log lines occur in no run. *)
Theorem get_html_never_None :
  (forall site page_number,
      let url := url_of page_number in
      (exists response,
          site url = Answer response /\
          ok_status response = true /\
          snd (get_html site page_number) = Returns (Some (document response))) \/
      ((400 <=? status (site url)) && (status (site url) <? 600) = true /\
       snd (get_html site page_number) = Exits 1) \/
      (exists what,
          site url = Failure what /\
          snd (get_html site page_number) = Raises (RequestException what)) \/
      (exists code,
          site url = Rejected code /\
          (400 <=? code) && (code <? 600) = false /\
          snd (get_html site page_number) = Raises ParserRejectedMarkup)) /\
  (forall site page_number, snd (get_html site page_number) <> Returns None) /\
  (forall site now,
      ~ In (Log ERROR Failed_to_retrieve_initial_data) (fst (main site now)) /\
      forall i, ~ In (Log ERROR (Failed_to_retrieve_data_for_webpage i))
                     (fst (main site now))).
Proof.
  split; [| split].
  - intros site pn url; subst url.
    destruct (site (url_of pn)) as [response | code | what] eqn:E.
    + destruct (ok_status response) eqn:S.
      * left; exists response; repeat split; auto.
        rewrite (get_html_answer _ _ _ E S); reflexivity.
      * right; left; split.
        -- unfold ok_status in S; apply negb_false_iff in S; exact S.
        -- rewrite (get_html_status_error _ _ _ E S); reflexivity.
    + destruct ((400 <=? code) && (code <? 600)) eqn:S.
      * right; left; split; [exact S |].
        rewrite (get_html_rejected_status _ _ _ E S); reflexivity.
      * right; right; right; exists code; repeat split; auto.
        rewrite (get_html_rejected _ _ _ E S); reflexivity.
    + right; right; left; exists what; split; auto.
      rewrite (get_html_failure _ _ _ E); reflexivity.
  - intros site pn H.
    apply (get_html_not_None site pn (fst (get_html site pn))).
    rewrite <- H; apply pair_eta.
  - intros site now.
    assert (S : silent unusable_fetch_event (main site now))
      by (apply main_silent; intros; reflexivity).
    split; [| intros i]; apply (silent_not_in _ _ _ S); reflexivity.
Qed.

(** C6.  When the list collected is empty at the end of the page loop,
    [main] logs that no car data was collected and returns:
    [save_list_to_csv] is not called and no file event occurs in the
    run. *)
Theorem empty_result_writes_nothing (site : string -> reply) (now : string) t :
  run_result site = (t, Returns []) ->
  main site now = (t ++ [Log ERROR No_car_data_collected], Returns tt) /\
  filter file_event (fst (main site now)) = [].
Proof.
  intros H.
  assert (E : main site now =
              (t ++ [Log ERROR No_car_data_collected], Returns tt))
    by (rewrite (main_after_loop _ _ _ _ H); reflexivity).
  split; [exact E |].
  rewrite E; simpl. rewrite filter_app; simpl.
  pose proof (silent_filter file_event (run_result site)) as F.
  rewrite H in F; simpl in F; rewrite F; [reflexivity |].
  rewrite <- H; apply run_result_silent; intros; reflexivity.
Qed.

Lemma empty_result_writes_nothing_witness :
  let t := fst (run_result Samples.empty_site) in
  run_result Samples.empty_site = (t, Returns []) /\
  main Samples.empty_site Samples.now =
  (t ++ [Log ERROR No_car_data_collected], Returns tt) /\
  filter file_event (fst (main Samples.empty_site Samples.now)) = [].
Proof.
  assert (H : run_result Samples.empty_site =
              (fst (run_result Samples.empty_site), Returns []))
    by reflexivity.
  split; [exact H |].
  exact (empty_result_writes_nothing Samples.empty_site Samples.now _ H).
Defined.

(** A run whose second page cannot be reached: the three records of
    page 1 were appended, the exception of the request ends the run in
    the handler of [main], and no file is opened. *)
Example second_page_down_run :
  let t := fst (main Samples.second_page_down Samples.now) in
  snd (main Samples.second_page_down Samples.now) = Returns tt /\
  In (Log INFO (Appended (record_of Samples.myvi_c))) t /\
  In (Log ERROR (Unhandled (RequestException "ConnectionError"))) t /\
  filter file_event t = [].
Proof. repeat split; vm_compute; tauto. Qed.

(** A run whose second page answers with status 503: the process exits
    with status 1 after the records of page 1, and no file is opened. *)
Example second_page_503_run :
  let t := fst (main Samples.second_page_503 Samples.now) in
  snd (main Samples.second_page_503 Samples.now) = Exits 1 /\
  In (Log INFO (Appended (record_of Samples.myvi_c))) t /\
  In (Log ERROR (HTTP_error_occured (HTTPError 503))) t /\
  filter file_event t = [].
Proof. repeat split; vm_compute; tauto. Qed.

(** C10.  When the run ends before the end of its page loop, by the
    exit of a fetch or of an extraction or by an exception, whatever
    records were appended until then, [save_list_to_csv] is not called:
    no file event occurs in the run, which ends with the exit status,
    or returns after the handler of [main] logged the exception. *)
Theorem failure_writes_nothing (site : string -> reply) (now : string) t r :
  run_result site = (t, r) -> (forall l, r <> Returns l) ->
  filter file_event (fst (main site now)) = [] /\
  ((exists code, r = Exits code /\ main site now = (t, Exits code)) \/
   (exists e, r = Raises e /\
              main site now = (t ++ [Log ERROR (Unhandled e)], Returns tt))).
Proof.
  intros H Hr.
  assert (F : filter file_event t = []).
  { pose proof (silent_filter file_event (run_result site)) as F.
    rewrite H in F; apply F.
    rewrite <- H; apply run_result_silent; intros; reflexivity. }
  destruct r as [l|code|e]; [exfalso; apply (Hr l); reflexivity | |].
  - rewrite (main_after_exit _ _ _ _ H); split; [exact F |].
    left; exists code; auto.
  - rewrite (main_after_exception _ _ _ _ H); split.
    + simpl; rewrite filter_app, F; reflexivity.
    + right; exists e; auto.
Qed.

Lemma failure_writes_nothing_witness :
  let site := Samples.two_pages_untitled in
  let t := fst (run_result site) in
  (run_result site = (t, Exits 1) /\
   In (Log INFO (Appended (record_of Samples.myvi_a))) t /\
   In (Log INFO (Appended (record_of Samples.myvi_b))) t) /\
  filter file_event (fst (main site Samples.now)) = [] /\
  ((exists code, @Exits (list dict) 1 = Exits code /\
    main site Samples.now = (t, Exits code)) \/
   (exists e, @Exits (list dict) 1 = Raises e /\
              main site Samples.now = (t ++ [Log ERROR (Unhandled e)], Returns tt))).
Proof.
  assert (H : run_result Samples.two_pages_untitled =
              (fst (run_result Samples.two_pages_untitled), Exits 1))
    by reflexivity.
  split.
  - split; [exact H |].
    split; vm_compute; tauto.
  - apply (failure_writes_nothing Samples.two_pages_untitled Samples.now _ _ H).
    intros l; discriminate.
Defined.

(** C8.  Two runs on the same site, started at different times, end the
    same way and perform the same events up to the name of the output
    file: the same requests, the same records extracted in the same
    order, the same rows written.  The file events of a run carry the
    name made from its own starting time. *)
Theorem run_deterministic (site : string -> reply) (now1 now2 : string) :
  map unnamed (fst (main site now1)) = map unnamed (fst (main site now2)) /\
  snd (main site now1) = snd (main site now2) /\
  (forall ev, In ev (fst (main site now1)) -> file_event ev = true ->
              ev = Open (filename_of now1) \/
              exists row, ev = Writerow (filename_of now1) row).
Proof.
  assert (S : same_but_name (main site now1) (main site now2)).
  { rewrite !main_unfold.
    assert (B : same_but_name
                  (bind (run_result site)
                        (fun ca => persist ca (filename_of now1)))
                  (bind (run_result site)
                        (fun ca => persist ca (filename_of now2))))
      by (apply same_but_name_bind;
          [apply same_but_name_refl | intros; apply persist_same_but_name]).
    destruct B as [Bt Br]. unfold same_but_name.
    rewrite !try_except_unfold, <- Br.
    destruct (snd (bind (run_result site)
                     (fun ca => persist ca (filename_of now1)))) eqn:E;
      cbn [fst snd].
    - split; [exact Bt | rewrite <- Br; exact E].
    - split; [exact Bt | rewrite <- Br; exact E].
    - rewrite !map_app, Bt; auto. }
  destruct S as [St Sr]; split; [exact St | split; [exact Sr |]].
  intros ev Hin Hfile.
  assert (Q : silent (misnamed (filename_of now1)) (main site now1)).
  { apply main_silent; intros; try reflexivity;
      simpl; rewrite String.eqb_refl; reflexivity. }
  unfold silent in Q; rewrite Forall_forall in Q; specialize (Q ev Hin).
  destruct ev as [| | | f | f row]; simpl in *; try discriminate.
  - apply negb_false_iff, String.eqb_eq in Q; subst; auto.
  - apply negb_false_iff, String.eqb_eq in Q; subst; right; exists row; auto.
Qed.

(** C4.  A listing block without its title, its price or its
    instalment element is fatal: extraction logs the error and exits
    with status 1; the inner loop stops there whatever blocks come
    before and after; and a run that is served all its pages and meets
    such a block on one of them ends with exit status 1, without any
    file event. *)
Theorem missing_required_element_is_fatal (item : PageElement) :
  title item = None \/ price item = None \/ instalment item = None ->
  get_car_attribute item =
  ([Log ERROR (Error_in_function_get_car_attribute AttributeError)], Exits 1) /\
  (forall before after acc,
      exists t, car_loop (before ++ item :: after) acc = (t, Exits 1)) /\
  (forall site now r0 t1 m i response,
      site (url_of None) = Answer r0 -> ok_status r0 = true ->
      discover (document r0) = (t1, Returns m) ->
      (forall j, 1 <= j <= m -> exists r, site (url_of (Some j)) = Answer r) ->
      1 <= i <= m ->
      site (url_of (Some i)) = Answer response ->
      In item (get_car_list (document response)) ->
      exists t, main site now = (t, Exits 1) /\ filter file_event t = []).
Proof.
  intros Hmissing.
  assert (Hreq : required_present item = false).
  { unfold required_present.
    destruct Hmissing as [-> | [-> | ->]]; simpl;
      rewrite ?andb_false_r; reflexivity. }
  split; [apply Extraction.get_car_attribute_exits, Hreq | split].
  - intros before after acc.
    destruct (car_loop_cases (before ++ item :: after) acc)
      as [[Hall _] | [_ H]]; [| exact H].
    exfalso. rewrite Forall_forall in Hall.
    rewrite (Hall item) in Hreq; [discriminate |].
    apply in_or_app; right; left; reflexivity.
  - intros site now r0 t1 m i response E0 S0 D Hserved Hi E Hin.
    destruct (page_loop_fatal site (range 1 (m + 1)) i response item)
      with (acc := @nil dict) as [t Ht]; auto.
    + intros j Hj; apply Hserved; apply range_In in Hj; lia.
    + apply range_In; lia.
    + pose proof (run_result_discovered site r0 t1 m E0 S0 D) as R.
      rewrite Ht in R; cbn [fst snd] in R.
      eexists; split; [apply (main_after_exit _ _ _ _ R) |].
      pose proof (silent_filter file_event (run_result site)) as F.
      rewrite R in F; apply F.
      rewrite <- R; apply run_result_silent; intros; reflexivity.
Qed.

Lemma missing_required_element_is_fatal_witness :
  title Samples.untitled = None /\
  get_car_attribute Samples.untitled =
  ([Log ERROR (Error_in_function_get_car_attribute AttributeError)], Exits 1) /\
  (exists t, car_loop [Samples.myvi_a; Samples.untitled; Samples.myvi_b] [] =
             (t, Exits 1)) /\
  (exists t, main Samples.two_pages_untitled Samples.now = (t, Exits 1) /\
             filter file_event t = []).
Proof.
  assert (H : title Samples.untitled = None) by reflexivity.
  destruct (missing_required_element_is_fatal Samples.untitled (or_introl H))
    as [H1 [H2 H3]].
  split; [exact H | split; [exact H1 | split]].
  - exact (H2 [Samples.myvi_a] [Samples.myvi_b] []).
  - apply (H3 Samples.two_pages_untitled Samples.now
              {| status_code := 200;
                 document := Samples.page ["1"; "2"]%string
                               [Samples.myvi_a; Samples.myvi_b; Samples.untitled] |}
              [Log INFO (Max_page_number_is 2)] 2 1
              {| status_code := 200;
                 document := Samples.page ["1"; "2"]%string
                               [Samples.myvi_a; Samples.myvi_b; Samples.untitled] |});
      try reflexivity.
    + intros j Hj.
      assert (Hc : j = 1 \/ j = 2) by lia.
      destruct Hc as [-> | ->]; eexists; reflexivity.
    + lia.
    + vm_compute; tauto.
Defined.





End Run.


(* ================================================================== *)
(** ** More on pagination *)

Module Pagination.
Import Soup Py Scraper Notions PyFacts.
Local Open Scope Z_scope.

Lemma forallb_false {A} (f : A -> bool) (l : list A) :
  forallb f l = false -> exists x, In x l /\ f x = false.
Proof.
  induction l as [|a l IH]; simpl; [discriminate |].
  destruct (f a) eqn:E; simpl.
  - intros H; destruct (IH H) as [x [Hin Hx]]; exists x; auto.
  - intros _; exists a; auto.
Qed.

(** [get_page_number_list] performs no effect.  It returns the values of
    the button texts that [isdigit] accepts, in document order, when
    [int] reads all of them; it raises [ValueError], and returns nothing,
    when [int] refuses one of them. *)
Theorem get_page_number_list_spec (car_html : PageElement) :
  get_page_number_list car_html =
  if forallb (fun s => present (Str.int s)) (numeric_texts car_html)
  then ([], Returns (map value (numeric_texts car_html)))
  else ([], Raises ValueError).
Proof.
  destruct (forallb _ _) eqn:E.
  - apply Discovery.get_page_number_list_returns.
    intros s Hs. rewrite forallb_forall in E. specialize (E s Hs).
    destruct (Str.int s); [discriminate | discriminate E].
  - apply forallb_false in E as [s [Hs E]].
    unfold get_page_number_list.
    apply Discovery.page_number_loop_raises.
    exists s; split; [exact Hs |].
    destruct (Str.int s); [discriminate E | reflexivity].
Qed.

Lemma is_max_unique (m m' : Z) (l l' : list Z) :
  (forall n, In n l <-> In n l') -> is_max m l -> is_max m' l' -> m = m'.
Proof.
  intros H [Hin Hle] [Hin' Hle'].
  rewrite Forall_forall in Hle, Hle'.
  pose proof (Hle m' (proj2 (H m') Hin')).
  pose proof (Hle' m (proj1 (H m) Hin)). lia.
Qed.

(** [get_max_page_number] logs and returns 1 for the empty list and the
    greatest element otherwise; the order of the list and repeated
    elements do not matter. *)
Theorem get_max_page_number_spec (page_number_list : list Z) :
  exists m,
    get_max_page_number page_number_list =
    ([Log INFO (Max_page_number_is m)], Returns m) /\
    (page_number_list = [] -> m = 1) /\
    (page_number_list <> [] -> is_max m page_number_list) /\
    (forall l', (forall n, In n page_number_list <-> In n l') ->
                get_max_page_number l' = get_max_page_number page_number_list).
Proof.
  destruct page_number_list as [|x l].
  - exists 1; repeat split; try congruence.
    intros l' H; destruct l' as [|y l']; [reflexivity |].
    exfalso; apply (proj2 (H y)); left; reflexivity.
  - exists (max_list x l); repeat split; try discriminate;
      try apply Discovery.max_list_is_max.
    intros l' H; destruct l' as [|y l'].
    + exfalso; apply (proj1 (H x)); left; reflexivity.
    + unfold get_max_page_number.
      rewrite (is_max_unique (max_list y l') (max_list x l) (y :: l') (x :: l));
        auto using Discovery.max_list_is_max.
      intros n; symmetry; apply H.
Qed.



(** A text of decimal characters longer than the limit of the
    interpreter is refused by [int] like any other text it cannot
    read. *)
Lemma int_refuses_long (s : string) :
  (Str.max_str_digits < Str.count_decimal (Str.strip s))%N ->
  Str.int s = None.
Proof.
  intros H; unfold Str.int.
  apply N.ltb_lt in H; rewrite H; reflexivity.
Qed.

(** A pagination button of 4301 digits: [isdigit] accepts the text,
    [int] refuses it, and discovery raises [ValueError]; with 4300
    digits discovery returns. *)
Example discover_long_number :
  Str.isdigit (Samples.ones 4301) = true /\
  discover (Samples.page [Samples.ones 4301] []) = ([], Raises ValueError) /\
  decimal (Samples.ones 4300) = true /\
  exists m, snd (discover (Samples.page [Samples.ones 4300] [])) = Returns m.
Proof.
  split; [vm_compute; reflexivity |].
  split; [vm_compute; reflexivity |].
  split; [vm_compute; reflexivity |].
  destruct (Discovery.discover_decimal (Samples.page [Samples.ones 4300] []))
    as [m [H _]].
  - assert (E : numeric_texts (Samples.page [Samples.ones 4300] []) =
                [Samples.ones 4300]) by (vm_compute; reflexivity).
    rewrite E; constructor; [vm_compute; reflexivity | constructor].
  - exists m; rewrite H; reflexivity.
Qed.

End Pagination.

(* ================================================================== *)
(** ** More on the extraction of a record *)

Module Records.
Import Soup Py Scraper Notions PyFacts.
Local Open Scope Z_scope.

(** Extraction returns a record exactly when the title, the price and the
    instalment are there, and exits with status 1 exactly when one of
    them is missing; it never lets an exception out, and it logs one line
    in both cases. *)
Theorem get_car_attribute_outcome (item : PageElement) :
  (required_present item = true <->
   exists d, snd (get_car_attribute item) = Returns d) /\
  (required_present item = false <->
   snd (get_car_attribute item) = Exits 1) /\
  (forall e, snd (get_car_attribute item) <> Raises e) /\
  (exists lvl msg, fst (get_car_attribute item) = [Log lvl msg]).
Proof.
  destruct (Extraction.get_car_attribute_cases item) as [[Hreq H] | [Hreq H]];
    rewrite H, Hreq; cbn [fst snd].
  - split; [| split; [| split]].
    + split; [intros _; eexists; reflexivity | reflexivity].
    + split; discriminate.
    + discriminate.
    + eexists; eexists; reflexivity.
  - split; [| split; [| split]].
    + split; [discriminate | intros [d Hd]; discriminate].
    + split; reflexivity.
    + discriminate.
    + eexists; eexists; reflexivity.
Qed.

(** A record returned is logged as appended.  Its keys are the six
    column names when the block has the container of details and the
    three names car_name, car_price, car_monthly_instalment otherwise;
    the name is the normalised text of the title, the price and the
    instalment are the stripped texts of their elements. *)
Theorem record_contents (item : PageElement) t d :
  get_car_attribute item = (t, Returns d) ->
  t = [Log INFO (Appended d)] /\
  keys d = (if present (other_details item) then header else short_header) /\
  get d "car_name" = option_map car_name_of (title item) /\
  get d "car_price" = option_map (get_text true) (price item) /\
  get d "car_monthly_instalment" = option_map (get_text true) (instalment item).
Proof.
  intros H.
  destruct (Extraction.get_car_attribute_cases item) as [[Hreq E] | [_ E]];
    [| rewrite E in H; discriminate].
  destruct (Extraction.required_present_inv item Hreq) as [a [p [q [Ha [Hp Hq]]]]].
  pose proof (Extraction.get_car_attribute_returns item a p q Ha Hp Hq) as R.
  simpl in R. rewrite R in H. injection H as <- <-.
  rewrite Ha, Hp, Hq.
  destruct (other_details item); repeat split; reflexivity.
Qed.

Lemma record_contents_witness :
  let d := record_of Samples.myvi_a in
  get_car_attribute Samples.myvi_a = ([Log INFO (Appended d)], Returns d) /\
  keys d = header /\
  get d "car_name" = Some "Myvi 1.3 X"%string /\
  get d "car_price" = Some "RM 38,000"%string /\
  get d "car_monthly_instalment" = Some "RM 410/mo"%string.
Proof.
  assert (H : get_car_attribute Samples.myvi_a =
              ([Log INFO (Appended (record_of Samples.myvi_a))],
               Returns (record_of Samples.myvi_a))) by reflexivity.
  split; [exact H |].
  exact (proj2 (record_contents Samples.myvi_a _ _ H)).
Defined.

(** When the block has the container of details, the mileage, the
    transmission and the location are the stripped texts of its first,
    second and third span, in document order, and the string None for a
    position beyond the spans there are; further spans are not read. *)
Theorem details_by_position (item container : PageElement) t d k key :
  get_car_attribute item = (t, Returns d) ->
  other_details item = Some container ->
  nth_error detail_keys k = Some key ->
  get d key =
  Some (match nth_error (find_all "span" None container) k with
        | Some span => get_text true span
        | None => "None"%string
        end).
Proof.
  intros H Hc Hk.
  destruct (Extraction.get_car_attribute_cases item) as [[Hreq E] | [_ E]];
    [| rewrite E in H; discriminate].
  destruct (Extraction.required_present_inv item Hreq) as [a [p [q [Ha [Hp Hq]]]]].
  pose proof (Extraction.record_with_details item a container p q Ha Hc Hp Hq) as R.
  simpl in R. rewrite E in H; injection H as _ <-. rewrite R.
  destruct k as [|[|[|k]]]; simpl in Hk; try discriminate;
    [| | | destruct k; discriminate];
    injection Hk as <-; reflexivity.
Qed.

Lemma details_by_position_witness :
  let d := record_of Samples.myvi_c in
  get d "car_mileage" = Some "80,100 km"%string /\
  get d "car_transmission" = Some "Manual"%string /\
  get d "car_location" = Some "None"%string.
Proof.
  assert (H : get_car_attribute Samples.myvi_c =
              ([Log INFO (Appended (record_of Samples.myvi_c))],
               Returns (record_of Samples.myvi_c))) by reflexivity.
  split; [| split].
  - exact (details_by_position Samples.myvi_c _ _ _ 0%nat _ H eq_refl eq_refl).
  - exact (details_by_position Samples.myvi_c _ _ _ 1%nat _ H eq_refl eq_refl).
  - exact (details_by_position Samples.myvi_c _ _ _ 2%nat _ H eq_refl eq_refl).
Defined.

Lemma append_assoc (a b c : string) : ((a ++ b) ++ c = a ++ (b ++ c))%string.
Proof. induction a as [|x a IH]; simpl; [reflexivity | rewrite IH; reflexivity]. Qed.

Lemma append_nil_r (a : string) : (a ++ "")%string = a.
Proof. induction a as [|x a IH]; simpl; [reflexivity | rewrite IH; reflexivity]. Qed.

(** Reading a run of characters that are not spaces extends the word
    being read. *)
Lemma split_from_word (u : string) :
  Str.all_chars (fun c => negb (Str.isspace_char c)) u = true ->
  forall w s, Str.split_from w (u ++ s)%string = Str.split_from (w ++ u)%string s.
Proof.
  induction u as [|c u IH]; simpl; intros H w s.
  - rewrite append_nil_r; reflexivity.
  - apply andb_true_iff in H as [Hc Hu]. apply negb_true_iff in Hc.
    rewrite Hc, (IH Hu), append_assoc. reflexivity.
Qed.

(** Words joined with single spaces split into the same words. *)
Lemma split_join (ws : list string) :
  Forall word ws -> Str.split (Str.join " " ws) = ws.
Proof.
  unfold Str.split.
  induction 1 as [|w ws [Hne Hw] Hws IH]; [reflexivity |].
  destruct ws as [|w2 ws].
  - simpl. rewrite <- (append_nil_r w) at 1.
    rewrite (split_from_word w Hw). simpl.
    destruct w; [congruence | reflexivity].
  - change (Str.join " " (w :: w2 :: ws))
      with (w ++ String " " (Str.join " " (w2 :: ws)))%string.
    rewrite (split_from_word w Hw).
    cbn [append Str.split_from].
    change (Str.isspace_char " ") with true. cbn iota.
    rewrite IH. destruct w; [congruence | reflexivity].
Qed.

(** The normalisation of the name, [' '.join(text.split())], keeps the
    words of the text and is idempotent: a name that went through it is
    left as it is by a second pass. *)
Theorem car_name_idempotent (s : string) :
  let car_name_joined := Str.join " " (Str.split s) in
  Str.split car_name_joined = Str.split s /\
  Str.join " " (Str.split car_name_joined) = car_name_joined.
Proof.
  assert (H : Str.split (Str.join " " (Str.split s)) = Str.split s).
  { apply split_join. eapply Forall_impl; [| apply StrFacts.split_words].
    intros w Hw; exact Hw. }
  simpl; rewrite H; split; reflexivity.
Qed.

End Records.

(* ================================================================== *)
(** ** Writing the file *)

Module Csv.
Import Soup Py Scraper Notions PyFacts.
Local Open Scope Z_scope.

Lemma writerow_unfold filename fieldnames row :
  writerow filename fieldnames row =
  if fits fieldnames row
  then ([Writerow filename (row_of fieldnames row)], Returns tt)
  else ([], Raises ValueError).
Proof. unfold writerow, fits, row_of; destruct (forallb _ _); reflexivity. Qed.

(** A record fits the field names made of its own keys. *)
Lemma fits_own_keys (d : dict) : fits (keys d) d = true.
Proof.
  unfold fits; apply forallb_forall; intros k Hk.
  apply existsb_exists; exists k; split; [exact Hk | apply String.eqb_refl].
Qed.

Lemma writerows_fit filename fieldnames (rows : list dict) :
  Forall (fun r => fits fieldnames r = true) rows ->
  writerows filename fieldnames rows =
  (map (fun r => Writerow filename (row_of fieldnames r)) rows, Returns tt).
Proof.
  induction 1 as [|r rows Hr _ IH]; cbn [writerows]; [reflexivity |].
  rewrite writerow_unfold, Hr, IH; reflexivity.
Qed.

Lemma writerows_misfit filename fieldnames (before : list dict) r after :
  Forall (fun r => fits fieldnames r = true) before ->
  fits fieldnames r = false ->
  writerows filename fieldnames (before ++ r :: after) =
  (map (fun r => Writerow filename (row_of fieldnames r)) before,
   Raises ValueError).
Proof.
  intros Hb Hr; induction Hb as [|b before Hfit _ IH]; cbn [writerows app].
  - rewrite writerow_unfold, Hr; reflexivity.
  - rewrite writerow_unfold, Hfit, IH; reflexivity.
Qed.

(** When every record has its keys among those of the first one,
    [save_list_to_csv] opens the file, writes the keys of the first
    record as the header and one row per record in the order of the
    list, a missing key giving an empty cell, and logs the end. *)
Theorem save_list_to_csv_writes (d : dict) (ds : list dict) filename :
  Forall (fun r => fits (keys d) r = true) ds ->
  save_list_to_csv (d :: ds) filename =
  (Open filename :: Writerow filename (keys d) ::
   map (fun r => Writerow filename (row_of (keys d) r)) (d :: ds) ++
   [Log INFO (Data_has_been_inserted_into_file filename)],
   Returns tt).
Proof.
  intros H; unfold save_list_to_csv.
  cbn [bind ret emit fst snd app].
  rewrite (writerows_fit filename (keys d) (d :: ds))
    by (constructor; [apply fits_own_keys | exact H]).
  reflexivity.
Qed.

Lemma save_list_to_csv_writes_witness :
  let d := record_of Samples.myvi_a in
  let ds := [record_of Samples.myvi_bare] in
  Forall (fun r => fits (keys d) r = true) ds /\
  save_list_to_csv (d :: ds) "car_20240519103000.csv" =
  ([Open "car_20240519103000.csv";
    Writerow "car_20240519103000.csv" header;
    Writerow "car_20240519103000.csv"
      ["Myvi 1.3 X"; "45,000 km"; "Automatic"; "Selangor";
       "RM 38,000"; "RM 410/mo"]%string;
    Writerow "car_20240519103000.csv"
      ["Myvi 1.3 X"; ""; ""; ""; "RM 38,000"; "RM 410/mo"]%string;
    Log INFO (Data_has_been_inserted_into_file "car_20240519103000.csv")],
   Returns tt).
Proof.
  assert (H : Forall (fun r => fits (keys (record_of Samples.myvi_a)) r = true)
                [record_of Samples.myvi_bare]) by (repeat constructor).
  split; [exact H |].
  exact (save_list_to_csv_writes (record_of Samples.myvi_a)
           [record_of Samples.myvi_bare] "car_20240519103000.csv" H).
Defined.

(** When a record has a key that the first record lacks,
    [save_list_to_csv] raises [ValueError] at that record: the file was
    opened and holds the header and the rows of the records before it,
    the records after it are not written and the end is not logged. *)
Theorem save_list_to_csv_extra_key (d : dict) (before : list dict) r after
        filename :
  Forall (fun r => fits (keys d) r = true) before ->
  fits (keys d) r = false ->
  save_list_to_csv (d :: before ++ r :: after) filename =
  (Open filename :: Writerow filename (keys d) ::
   map (fun r => Writerow filename (row_of (keys d) r)) (d :: before),
   Raises ValueError).
Proof.
  intros Hb Hr; unfold save_list_to_csv.
  change (d :: before ++ r :: after) with ((d :: before) ++ r :: after).
  cbn [bind ret emit fst snd].
  rewrite (writerows_misfit filename (keys d) (d :: before) r after)
    by (try constructor; auto using fits_own_keys).
  reflexivity.
Qed.

Lemma save_list_to_csv_extra_key_witness :
  let d := record_of Samples.myvi_bare in
  let r := record_of Samples.myvi_a in
  fits (keys d) r = false /\
  save_list_to_csv (d :: [d] ++ r :: [d]) "car_20240519103000.csv" =
  ([Open "car_20240519103000.csv";
    Writerow "car_20240519103000.csv" short_header;
    Writerow "car_20240519103000.csv"
      ["Myvi 1.3 X"; "RM 38,000"; "RM 410/mo"]%string;
    Writerow "car_20240519103000.csv"
      ["Myvi 1.3 X"; "RM 38,000"; "RM 410/mo"]%string],
   Raises ValueError).
Proof.
  assert (Hr : fits (keys (record_of Samples.myvi_bare))
                 (record_of Samples.myvi_a) = false) by reflexivity.
  split; [exact Hr |].
  apply (save_list_to_csv_extra_key (record_of Samples.myvi_bare)
           [record_of Samples.myvi_bare] (record_of Samples.myvi_a)
           [record_of Samples.myvi_bare] "car_20240519103000.csv");
    [repeat constructor | exact Hr].
Defined.

Lemma writerows_rows filename fieldnames (rows : list dict) f row :
  In (Writerow f row) (fst (writerows filename fieldnames rows)) ->
  f = filename /\ List.length row = List.length fieldnames.
Proof.
  induction rows as [|r rows IH]; cbn [writerows]; [contradiction |].
  rewrite writerow_unfold, bind_unfold.
  destruct (fits fieldnames r); cbn [fst snd]; [| contradiction].
  intros [H | H]; [| apply IH, H].
  injection H as <- <-; split; [reflexivity |].
  unfold row_of; apply length_map.
Qed.

(** Every row [save_list_to_csv] writes goes to the file it was given
    and has as many cells as the first record has keys, the header row
    included. *)
Theorem rows_have_header_width (list_of_car : list dict) filename f row :
  In (Writerow f row) (fst (save_list_to_csv list_of_car filename)) ->
  f = filename /\
  exists d, hd_error list_of_car = Some d /\
            List.length row = List.length (keys d).
Proof.
  destruct list_of_car as [|d ds]; [contradiction |].
  unfold save_list_to_csv; cbn [bind ret emit fst snd app].
  rewrite bind_unfold.
  intros H.
  assert (Hin : Writerow f row = Writerow filename (keys d) \/
                In (Writerow f row)
                   (fst (writerows filename (keys d) (d :: ds)))).
  { destruct (snd (writerows filename (keys d) (d :: ds))); cbn [fst] in H.
    - destruct H as [H | [H | H]]; [discriminate | auto |].
      apply in_app_or in H as [H | [H | []]]; [auto | discriminate].
    - destruct H as [H | [H | H]]; [discriminate | auto | auto].
    - destruct H as [H | [H | H]]; [discriminate | auto | auto]. }
  destruct Hin as [Hin | Hin].
  - injection Hin as -> ->; split; [reflexivity | exists d; auto].
  - apply writerows_rows in Hin as [-> Hlen].
    split; [reflexivity | exists d; auto].
Qed.

Lemma rows_have_header_width_witness :
  let l := [record_of Samples.myvi_a; record_of Samples.myvi_bare] in
  let row := ["Myvi 1.3 X"; ""; ""; ""; "RM 38,000"; "RM 410/mo"]%string in
  In (Writerow "out.csv" row) (fst (save_list_to_csv l "out.csv")) /\
  List.length row = 6%nat.
Proof.
  assert (H : In (Writerow "out.csv"
                    ["Myvi 1.3 X"; ""; ""; ""; "RM 38,000"; "RM 410/mo"]%string)
                 (fst (save_list_to_csv
                         [record_of Samples.myvi_a; record_of Samples.myvi_bare]
                         "out.csv")))
    by (right; right; right; left; reflexivity).
  split; [exact H |].
  destruct (rows_have_header_width _ _ _ _ H) as [_ [d [Hd Hlen]]].
  injection Hd as <-. exact Hlen.
Defined.

End Csv.


(* ================================================================== *)
(** ** More on the run *)

Module Runs.
Import Soup Py Scraper Notions PyFacts.
Local Open Scope Z_scope.

Lemma ends_with_prefix t0 t ev : ends_with t ev -> ends_with (t0 ++ t) ev.
Proof. intros [t' ->]; exists (t0 ++ t'); apply app_assoc. Qed.

Lemma fatal_logged_prefix t0 t : fatal_logged t -> fatal_logged (t0 ++ t).
Proof.
  intros [e [H | H]]; exists e; [left | right]; apply ends_with_prefix, H.
Qed.

(** *** How a call that does not return ends *)

Section Aborts.
Variable Qx : list event -> Z -> Prop.
Variable Qe : list event -> exn -> Prop.
Hypothesis Qx_prefix : forall t0 t code, Qx t code -> Qx (t0 ++ t) code.
Hypothesis Qe_prefix : forall t0 t e, Qe t e -> Qe (t0 ++ t) e.

Lemma aborts_bind {A B} (m : M A) (k : A -> M B) :
  aborts_as Qx Qe m ->
  (forall a, snd m = Returns a -> aborts_as Qx Qe (k a)) ->
  aborts_as Qx Qe (bind m k).
Proof.
  unfold aborts_as; intros Hm Hk; rewrite bind_unfold.
  destruct (snd m) as [a|code|e]; cbn [fst snd]; auto.
  specialize (Hk a eq_refl).
  destruct (snd (k a)); auto.
Qed.

Hypothesis Q_http :
  forall url e, Qx [Get url; Log ERROR (HTTP_error_occured e)] 1.
Hypothesis Q_extract :
  forall e, Qx [Log ERROR (Error_in_function_get_car_attribute e)] 1.
Hypothesis Q_transport : forall url what, Qe [Get url] (RequestException what).
Hypothesis Q_parser :
  forall url, Qe [Get url; Log INFO (Opening_webpage url)] ParserRejectedMarkup.
Hypothesis Q_value : Qe [] ValueError.

Variable site : string -> reply.

Lemma get_html_aborts page_number :
  aborts_as Qx Qe (get_html site page_number).
Proof.
  unfold aborts_as.
  destruct (Run.get_html_cases site page_number)
    as [[r [_ [_ H]]] | [[c [_ H]] | [[w [_ H]] | [c [_ H]]]]];
    rewrite H; cbn [fst snd].
  - exact I.
  - apply Q_http.
  - apply Q_transport.
  - apply Q_parser.
Qed.

Lemma get_car_attribute_aborts item : aborts_as Qx Qe (get_car_attribute item).
Proof.
  unfold aborts_as.
  destruct (Extraction.get_car_attribute_cases item) as [[_ H] | [_ H]];
    rewrite H; [exact I | apply Q_extract].
Qed.

Lemma car_loop_aborts l : forall acc, aborts_as Qx Qe (car_loop l acc).
Proof.
  induction l as [|car rest IH]; intros acc; cbn [car_loop]; [exact I |].
  apply aborts_bind; [apply get_car_attribute_aborts | intros; apply IH].
Qed.

Lemma page_loop_aborts pages :
  forall acc, aborts_as Qx Qe (page_loop site pages acc).
Proof.
  induction pages as [|i rest IH]; intros acc; cbn [page_loop]; [exact I |].
  apply aborts_bind; [apply get_html_aborts |].
  intros [car_html|] _.
  - apply aborts_bind; [apply car_loop_aborts | intros ca _].
    apply aborts_bind; [exact I | intros _ _].
    apply aborts_bind; [exact I | intros _ _]. apply IH.
  - apply aborts_bind; [exact I | intros _ _]. apply IH.
Qed.

Lemma page_number_loop_aborts items :
  forall acc, aborts_as Qx Qe (page_number_loop items acc).
Proof.
  induction items as [|item rest IH]; intros acc; cbn [page_number_loop];
    [exact I |].
  destruct (find "button" None item) as [button|]; [| apply IH].
  destruct (Str.isdigit (text button)); [| apply IH].
  apply aborts_bind; [| intros; apply IH].
  unfold int; destruct (Str.int (text button)); [exact I | apply Q_value].
Qed.

Lemma run_result_aborts : aborts_as Qx Qe (run_result site).
Proof.
  unfold run_result.
  apply aborts_bind; [apply get_html_aborts |].
  intros [car_html|] _; [| exact I].
  apply aborts_bind; [apply page_number_loop_aborts | intros l _].
  apply aborts_bind; [exact I | intros m _]. apply page_loop_aborts.
Qed.
End Aborts.

(** A run that exits before its last statement exits with status 1 after
    the error line of a fetch or of an extraction; the exceptions that
    end it are those of a request and [ValueError]. *)
Lemma run_result_ends (site : string -> reply) :
  aborts_as (fun t code => code = 1 /\ fatal_logged t)
            (fun _ e => handled e) (run_result site).
Proof.
  apply run_result_aborts.
  - intros t0 t code [H1 H2]; split; [exact H1 | apply fatal_logged_prefix, H2].
  - auto.
  - intros url e; split; [reflexivity |].
    exists e; left; exists [Get url]; reflexivity.
  - intros e; split; [reflexivity |].
    exists e; right; exists []; reflexivity.
  - intros url what; left; exists what; reflexivity.
  - intros url; right; left; reflexivity.
  - right; right; reflexivity.
Qed.

(** *** The last statement, case by case *)

Lemma fits_split fieldnames (rows : list dict) :
  Forall (fun r => fits fieldnames r = true) rows \/
  exists before r after,
    rows = before ++ r :: after /\
    Forall (fun r => fits fieldnames r = true) before /\
    fits fieldnames r = false.
Proof.
  induction rows as [|x rows IH]; [left; constructor |].
  destruct (fits fieldnames x) eqn:E.
  - destruct IH as [IH | [before [r [after [-> [Hb Hr]]]]]].
    + left; constructor; assumption.
    + right; exists (x :: before), r, after; repeat split; auto.
  - right; exists [], x, rows; repeat split; auto.
Qed.

Lemma rows_only_map filename fieldnames (rows : list dict) :
  rows_only (map (fun r => Writerow filename (row_of fieldnames r)) rows).
Proof.
  apply Forall_forall; intros ev H.
  apply in_map_iff in H as [r [<- _]]; eauto.
Qed.

(** The last statement of [main] logs that nothing was collected, or
    writes the whole file and logs the end, or stops with [ValueError]
    after the file was opened. *)
Lemma persist_cases (car_attributes : list dict) filename :
  (car_attributes = [] /\
   persist car_attributes filename =
   ([Log ERROR No_car_data_collected], Returns tt)) \/
  (car_attributes <> [] /\
   exists rows, rows_only rows /\
     persist car_attributes filename =
     (Open filename :: rows ++
      [Log INFO (Data_has_been_inserted_into_file filename)], Returns tt)) \/
  (car_attributes <> [] /\
   exists rows, rows_only rows /\
     persist car_attributes filename =
     (Open filename :: rows, Raises ValueError)).
Proof.
  destruct car_attributes as [|d ds]; [left; auto | right].
  cbn [persist]; unfold save_list_to_csv; cbn [bind ret emit fst snd app].
  destruct (fits_split (keys d) ds) as [H | [before [r [after [-> [Hb Hr]]]]]].
  - left; split; [discriminate |].
    rewrite (Csv.writerows_fit filename (keys d) (d :: ds))
      by (constructor; [apply Csv.fits_own_keys | exact H]).
    exists (Writerow filename (keys d) ::
            map (fun r => Writerow filename (row_of (keys d) r)) (d :: ds)).
    split; [| reflexivity].
    constructor; [eauto | apply rows_only_map].
  - right; split; [discriminate |].
    change (d :: before ++ r :: after) with ((d :: before) ++ r :: after).
    rewrite (Csv.writerows_misfit filename (keys d) (d :: before) r after)
      by (try constructor; auto using Csv.fits_own_keys).
    exists (Writerow filename (keys d) ::
            map (fun r => Writerow filename (row_of (keys d) r)) (d :: before)).
    split; [| reflexivity].
    constructor; [eauto | apply rows_only_map].
Qed.

(** The five ways a run ends. *)
Lemma main_cases (site : string -> reply) (now : string) :
  let t := fst (run_result site) in
  (exists code, run_result site = (t, Exits code) /\
                main site now = (t, Exits code)) \/
  (exists e, run_result site = (t, Raises e) /\
             main site now = (t ++ [Log ERROR (Unhandled e)], Returns tt)) \/
  (run_result site = (t, Returns []) /\
   main site now = (t ++ [Log ERROR No_car_data_collected], Returns tt)) \/
  (exists d l rows,
      run_result site = (t, Returns (d :: l)) /\ rows_only rows /\
      main site now =
      (t ++ Open (filename_of now) :: rows ++
         [Log INFO (Data_has_been_inserted_into_file (filename_of now))],
       Returns tt)) \/
  (exists d l rows,
      run_result site = (t, Returns (d :: l)) /\ rows_only rows /\
      main site now =
      (t ++ Open (filename_of now) :: rows ++ [Log ERROR (Unhandled ValueError)],
       Returns tt)).
Proof.
  intros t; subst t.
  destruct (run_result site) as [t [l|code|e]] eqn:R; cbn [fst].
  - right; right.
    rewrite (Run.main_after_loop site now t l R), try_except_unfold.
    destruct (persist_cases l (filename_of now))
      as [[-> P] | [[Hne [rows [Hr P]]] | [Hne [rows [Hr P]]]]];
      rewrite P; cbn [fst snd].
    + left; auto.
    + right; left. destruct l as [|d l]; [congruence |].
      exists d, l, rows; auto.
    + right; right. destruct l as [|d l]; [congruence |].
      exists d, l, rows; repeat split; auto.
      cbn [logging_error emit fst snd]. rewrite <- app_assoc; reflexivity.
  - left; exists code; split; [reflexivity | apply (Run.main_after_exit _ _ _ _ R)].
  - right; left; exists e; split;
      [reflexivity | apply (Run.main_after_exception _ _ _ _ R)].
Qed.

Lemma rows_only_filter (p : event -> bool) (rows : list event) :
  (forall f row, p (Writerow f row) = false) ->
  rows_only rows -> filter p rows = [].
Proof.
  intros Hp; induction 1 as [|ev rows [f [row ->]] _ IH]; simpl; auto.
  rewrite Hp; exact IH.
Qed.

Lemma rows_only_not_in (rows : list event) ev :
  rows_only rows -> (forall f row, ev <> Writerow f row) -> ~ In ev rows.
Proof.
  unfold rows_only; rewrite Forall_forall; intros H Hev Hin.
  destruct (H ev Hin) as [f [row E]]; exact (Hev f row E).
Qed.

Lemma run_result_exit_code (site : string -> reply) t code :
  run_result site = (t, Exits code) -> code = 1 /\ fatal_logged t.
Proof.
  intros R; pose proof (run_result_ends site) as H.
  unfold aborts_as in H; rewrite R in H; exact H.
Qed.

Lemma run_result_exception (site : string -> reply) t e :
  run_result site = (t, Raises e) -> handled e.
Proof.
  intros R; pose proof (run_result_ends site) as H.
  unfold aborts_as in H; rewrite R in H; exact H.
Qed.

(** [main] never lets an exception out, and the process ends with status
    0 or 1.  Status 1 comes right after the error line of a fetch that
    got an error status or of an extraction that missed a required
    element.  A run that returns ends with the line that tells the file
    was written, or the line that tells nothing was collected, or the
    line of the handler for the exception that ended it. *)
Theorem main_ends (site : string -> reply) (now : string) :
  let t := fst (main site now) in
  (snd (main site now) = Exits 1 /\ fatal_logged t) \/
  (snd (main site now) = Returns tt /\
   (ends_with t (Log INFO (Data_has_been_inserted_into_file (filename_of now))) \/
    ends_with t (Log ERROR No_car_data_collected) \/
    exists e, ends_with t (Log ERROR (Unhandled e)))).
Proof.
  destruct (main_cases site now)
    as [[code [R M]] | [[e [R M]] | [[R M] | [[d [l [rows [R [Hr M]]]]] |
        [d [l [rows [R [Hr M]]]]]]]]]; rewrite M; cbn [fst snd].
  - destruct (run_result_exit_code site _ code R) as [-> F]; left; auto.
  - right; split; [reflexivity |]. right; right.
    exists e; eexists; reflexivity.
  - right; split; [reflexivity |]. right; left. eexists; reflexivity.
  - right; split; [reflexivity |]. left.
    exists (fst (run_result site) ++ Open (filename_of now) :: rows).
    rewrite <- app_assoc; reflexivity.
  - right; split; [reflexivity |]. right; right.
    exists ValueError.
    exists (fst (run_result site) ++ Open (filename_of now) :: rows).
    rewrite <- app_assoc; reflexivity.
Qed.

(** The exceptions the handler of [main] logs, among those of the
    calls transcribed here. *)
Lemma handler_sees (site : string -> reply) (now : string) e :
  In (Log ERROR (Unhandled e)) (fst (main site now)) -> handled e.
Proof.
  assert (S : ~ In (Log ERROR (Unhandled e)) (fst (run_result site))).
  { apply (silent_not_in is_unhandled); [| reflexivity].
    apply Run.run_result_silent; intros; reflexivity. }
  assert (NR : forall rows, rows_only rows ->
                            ~ In (Log ERROR (Unhandled e)) rows)
    by (intros rows Hr; apply rows_only_not_in; [exact Hr | discriminate]).
  destruct (main_cases site now)
    as [[code [R M]] | [[e0 [R M]] | [[R M] | [[d [l [rows [R [Hr M]]]]] |
        [d [l [rows [R [Hr M]]]]]]]]]; rewrite M; cbn [fst]; intros H.
  - exfalso; apply (S H).
  - apply in_app_or in H as [H | [H | []]]; [exfalso; apply (S H) |].
    injection H as <-. apply (run_result_exception site _ e0 R).
  - apply in_app_or in H as [H | [H | []]];
      [exfalso; apply (S H) | discriminate].
  - apply in_app_or in H as [H | [H | H]];
      [exfalso; apply (S H) | discriminate |].
    apply in_app_or in H as [H | [H | []]];
      [exfalso; apply (NR rows Hr H) | discriminate].
  - apply in_app_or in H as [H | [H | H]];
      [exfalso; apply (S H) | discriminate |].
    apply in_app_or in H as [H | [H | []]];
      [exfalso; apply (NR rows Hr H) |].
    injection H as <-; right; right; reflexivity.
Qed.

(** Three exceptions never reach the handler of [main]: the
    [AttributeError] of a missing element stays inside the extraction,
    which turns it into an exit; the [HTTPError] of an error status stays
    inside [get_html], which turns it into an exit; and no [IndexError]
    occurs, because [save_list_to_csv] is not called on an empty list. *)
Theorem handler_exceptions (site : string -> reply) (now : string) :
  ~ In (Log ERROR (Unhandled AttributeError)) (fst (main site now)) /\
  ~ In (Log ERROR (Unhandled IndexError)) (fst (main site now)) /\
  forall code, ~ In (Log ERROR (Unhandled (HTTPError code))) (fst (main site now)).
Proof.
  assert (N : forall e, (forall what, e <> RequestException what) ->
                        e <> ParserRejectedMarkup -> e <> ValueError ->
                        ~ In (Log ERROR (Unhandled e)) (fst (main site now))).
  { intros e H1 H2 H3 Hin.
    destruct (handler_sees site now e Hin) as [[what E] | [E | E]];
      [apply (H1 what E) | apply (H2 E) | apply (H3 E)]. }
  split; [| split; [| intros code]]; apply N; discriminate.
Qed.

(** A run opens at most one file.  It opens one, named after its starting
    time, exactly when the page loop returned with at least one record;
    all the events of the fetches and of the extractions come before,
    and after come only the rows and one last log line. *)
Theorem file_opened_iff (site : string -> reply) (now : string) :
  let t := fst (main site now) in
  (filter is_open t = [Open (filename_of now)] /\
   exists d l rows lvl msg,
     run_result site = (fst (run_result site), Returns (d :: l)) /\
     filter file_event (fst (run_result site)) = [] /\
     rows_only rows /\
     t = fst (run_result site) ++
         Open (filename_of now) :: rows ++ [Log lvl msg]) \/
  (filter is_open t = [] /\
   forall t' d l, run_result site <> (t', Returns (d :: l))).
Proof.
  assert (S : filter is_open (fst (run_result site)) = []).
  { apply silent_filter, Run.run_result_silent; intros; reflexivity. }
  assert (F : filter file_event (fst (run_result site)) = []).
  { apply silent_filter, Run.run_result_silent; intros; reflexivity. }
  destruct (main_cases site now)
    as [[code [R M]] | [[e0 [R M]] | [[R M] | [[d [l [rows [R [Hr M]]]]] |
        [d [l [rows [R [Hr M]]]]]]]]]; rewrite M; cbn [fst].
  - right; split; [exact S |]. intros t' d l E; rewrite E in R; discriminate.
  - right; split; [rewrite filter_app, S; reflexivity |].
    intros t' d l E; rewrite E in R; discriminate.
  - right; split; [rewrite filter_app, S; reflexivity |].
    intros t' d l E; rewrite E in R; discriminate.
  - left; split.
    + rewrite filter_app, S; cbn [filter is_open app].
      rewrite filter_app, (rows_only_filter is_open rows) by auto.
      reflexivity.
    + exists d, l, rows; eexists; eexists; repeat split; eauto.
  - left; split.
    + rewrite filter_app, S; cbn [filter is_open app].
      rewrite filter_app, (rows_only_filter is_open rows) by auto.
      reflexivity.
    + exists d, l, rows; eexists; eexists; repeat split; eauto.
Qed.

(** *** The page loop, page by page *)

Lemma car_loop_events (l : list PageElement) :
  forall acc,
    Forall (fun ev => extraction_event ev = true) (fst (car_loop l acc)).
Proof.
  induction l as [|car rest IH]; intros acc; cbn [car_loop]; [constructor |].
  rewrite bind_unfold.
  destruct (Extraction.get_car_attribute_cases car) as [[_ H] | [_ H]];
    rewrite H; cbn [fst snd].
  - apply Forall_app; split; [repeat constructor | apply IH].
  - repeat constructor.
Qed.

Lemma flat_map_nil {B} (f : event -> list B) (p : event -> bool) t :
  (forall ev, p ev = true -> f ev = []) ->
  Forall (fun ev => p ev = true) t -> flat_map f t = [].
Proof.
  intros Hf; induction 1 as [|ev t Hev _ IH]; simpl; auto.
  rewrite (Hf ev Hev), IH; reflexivity.
Qed.

Lemma extraction_no_request t :
  Forall (fun ev => extraction_event ev = true) t ->
  requests t = [] /\ pauses t = [] /\ completed t = [].
Proof.
  intros H; repeat split; apply (flat_map_nil _ extraction_event); auto;
    intros [[] []| | | |]; simpl; congruence.
Qed.

Lemma rows_no_request t :
  rows_only t ->
  requests t = [] /\ pauses t = [] /\ completed t = [] /\ appended t = [].
Proof.
  induction 1 as [|ev t [f [row ->]] _ [H1 [H2 [H3 H4]]]]; simpl; auto.
Qed.

(** One turn of the page loop: the fetch exits, or fails, or meets a
    body the parser rejects, or an extraction exits, or the page is
    completed and the loop goes on with the records of the page
    appended. *)
Lemma page_loop_cons (site : string -> reply) i rest acc :
  let url := url_of (Some i) in
  (exists e, page_loop site (i :: rest) acc =
             ([Get url; Log ERROR (HTTP_error_occured e)], Exits 1)) \/
  (exists t e,
      (t = [] \/ t = [Log INFO (Opening_webpage url)]) /\
      page_loop site (i :: rest) acc = (Get url :: t, Raises e)) \/
  (exists t1, Forall (fun ev => extraction_event ev = true) t1 /\
              page_loop site (i :: rest) acc =
              (Get url :: Log INFO (Opening_webpage url) :: t1, Exits 1)) \/
  (exists response,
      site url = Answer response /\ ok_status response = true /\
      let items := get_car_list (document response) in
      Forall (fun item => required_present item = true) items /\
      page_loop site (i :: rest) acc =
      (Get url :: Log INFO (Opening_webpage url) ::
       map (fun item => Log INFO (Appended (record_of item))) items ++
       Log INFO (Completed_scraping_in_page i) :: Sleep 5 ::
       fst (page_loop site rest (acc ++ map record_of items)),
       snd (page_loop site rest (acc ++ map record_of items)))).
Proof.
  intros url; cbn [page_loop].
  destruct (Run.get_html_cases site (Some i))
    as [[response [E [S H]]] | [[c [_ H]] | [[w [_ H]] | [c [_ H]]]]];
    fold url in H; try fold url in E.
  - rewrite (bind_returns _ _ _ _ H).
    cbn [fst snd]. right; right.
    pose proof (car_loop_events (get_car_list (document response)) acc) as Ev.
    destruct (Run.car_loop_cases (get_car_list (document response)) acc)
      as [[Hall C] | [_ [t C]]].
    + right. exists response; repeat split; auto.
      rewrite (bind_returns _ _ _ _ C).
      cbn [bind emit logging_info fst snd app].
      rewrite (pair_eta (page_loop site rest _)). cbn [fst snd].
      reflexivity.
    + left. rewrite C in Ev; cbn [fst] in Ev.
      exists t; split; [exact Ev |].
      rewrite (bind_exits _ _ _ _ C). reflexivity.
  - left. exists (HTTPError c).
    rewrite (bind_exits _ _ _ _ H). reflexivity.
  - right; left; exists [], (RequestException w); split; [left; reflexivity |].
    rewrite (bind_raises _ _ _ _ H). reflexivity.
  - right; left.
    exists [Log INFO (Opening_webpage url)], ParserRejectedMarkup.
    split; [right; reflexivity |].
    rewrite (bind_raises _ _ _ _ H). reflexivity.
Qed.

Lemma appended_records (items : list PageElement) :
  appended (map (fun item => Log INFO (Appended (record_of item))) items) =
  map record_of items.
Proof. induction items as [|x l IH]; simpl; [| rewrite IH]; reflexivity. Qed.

Lemma records_no_request (items : list PageElement) :
  let t := map (fun item => Log INFO (Appended (record_of item))) items in
  requests t = [] /\ pauses t = [] /\ completed t = [].
Proof.
  apply extraction_no_request, Forall_forall; intros ev H.
  apply in_map_iff in H as [x [<- _]]; reflexivity.
Qed.

Lemma requests_app t1 t2 : requests (t1 ++ t2) = requests t1 ++ requests t2.
Proof. apply flat_map_app. Qed.

Lemma pauses_app t1 t2 : pauses (t1 ++ t2) = pauses t1 ++ pauses t2.
Proof. apply flat_map_app. Qed.

Lemma completed_app t1 t2 : completed (t1 ++ t2) = completed t1 ++ completed t2.
Proof. apply flat_map_app. Qed.

Lemma appended_app t1 t2 : appended (t1 ++ t2) = appended t1 ++ appended t2.
Proof. apply flat_map_app. Qed.

Lemma fetched_prefix url t :
  let t' := Get url :: Log INFO (Opening_webpage url) :: t in
  requests t' = url :: requests t /\ completed t' = completed t /\
  pauses t' = pauses t /\ appended t' = appended t.
Proof. repeat split; reflexivity. Qed.

Lemma completed_suffix i t :
  let t' := Log INFO (Completed_scraping_in_page i) :: Sleep 5 :: t in
  requests t' = requests t /\ completed t' = i :: completed t /\
  pauses t' = 5 :: pauses t /\ appended t' = appended t.
Proof. repeat split; reflexivity. Qed.

(** The requests, the pages completed and the pauses of the page loop:
    the pages are requested in the order of the list, every page
    completed is followed by one pause of 5 seconds, and at most one page
    is requested without being completed. *)
Lemma page_loop_trace (site : string -> reply) (pages : list Z) :
  forall acc,
  let t := fst (page_loop site pages acc) in
  exists kr kc,
    (kc <= kr <= S kc)%nat /\ (kr <= List.length pages)%nat /\
    requests t = map (fun i => url_of (Some i)) (firstn kr pages) /\
    completed t = firstn kc pages /\
    pauses t = repeat 5 kc /\
    (forall l, snd (page_loop site pages acc) = Returns l ->
               kc = List.length pages).
Proof.
  induction pages as [|i rest IH]; intros acc t; subst t.
  - exists 0%nat, 0%nat; cbn; repeat split; auto.
  - destruct (page_loop_cons site i rest acc)
      as [[e P] | [[t0 [e [Ht0 P]]] | [[t1 [Ev P]] |
          [response [E [Sok [Hall P]]]]]]];
      rewrite P; cbn [fst snd].
    + exists 1%nat, 0%nat; cbn; repeat split; auto; try lia; discriminate.
    + exists 1%nat, 0%nat; destruct Ht0 as [-> | ->]; cbn;
        repeat split; auto; try lia; discriminate.
    + destruct (extraction_no_request t1 Ev) as [R1 [R2 R3]].
      destruct (fetched_prefix (url_of (Some i)) t1) as [F1 [F2 [F3 _]]].
      cbv zeta in F1, F2, F3.
      exists 1%nat, 0%nat; rewrite F1, F2, F3, R1, R2, R3.
      cbn [List.length firstn map repeat].
      repeat split; auto; try lia; discriminate.
    + destruct (IH (acc ++ map record_of (get_car_list (document response))))
        as [kr [kc [Hk [Hlen [Hr [Hc [Hp Hret]]]]]]].
      destruct (records_no_request (get_car_list (document response)))
        as [R1 [R2 R3]]. cbv zeta in R1, R2, R3.
      match goal with
      | |- context [Get ?u :: Log INFO (Opening_webpage ?u) :: ?x] =>
          destruct (fetched_prefix u x) as [F1 [F2 [F3 _]]]
      end.
      cbv zeta in F1, F2, F3.
      match goal with
      | |- context [Log INFO (Completed_scraping_in_page i) :: Sleep 5 :: ?x] =>
          destruct (completed_suffix i x) as [G1 [G2 [G3 _]]]
      end.
      cbv zeta in G1, G2, G3.
      exists (S kr), (S kc); cbn [List.length firstn map repeat].
      rewrite F1, F2, F3, requests_app, completed_app, pauses_app.
      rewrite R1, R2, R3, G1, G2, G3, Hr, Hc, Hp.
      cbn [app].
      repeat split; auto; try lia.
      intros l Hl; rewrite (Hret l Hl); reflexivity.
Qed.

(** When the page loop returns, the list it returns is the list it
    started from followed by the records logged as appended. *)
Lemma page_loop_appended (site : string -> reply) (pages : list Z) :
  forall acc l,
    snd (page_loop site pages acc) = Returns l ->
    l = acc ++ appended (fst (page_loop site pages acc)).
Proof.
  induction pages as [|i rest IH]; intros acc l.
  - cbn; intros H; injection H as <-; rewrite app_nil_r; reflexivity.
  - destruct (page_loop_cons site i rest acc)
      as [[e P] | [[t0 [e [Ht0 P]]] | [[t1 [Ev P]] |
          [response [E [S [Hall P]]]]]]];
      rewrite P; cbn [fst snd]; try discriminate.
    intros H; apply IH in H; rewrite H at 1.
    match goal with
    | |- context [Get ?u :: Log INFO (Opening_webpage ?u) :: ?x] =>
        destruct (fetched_prefix u x) as [_ [_ [_ F]]]
    end.
    cbv zeta in F; rewrite F, appended_app, appended_records.
    match goal with
    | |- context [Log INFO (Completed_scraping_in_page i) :: Sleep 5 :: ?x] =>
        destruct (completed_suffix i x) as [_ [_ [_ G]]]
    end.
    cbv zeta in G; rewrite G, <- app_assoc; reflexivity.
Qed.

(** *** The whole run *)

Lemma get_page_number_list_cases (car_html : PageElement) :
  (exists l, get_page_number_list car_html = ([], Returns l)) \/
  get_page_number_list car_html = ([], Raises ValueError).
Proof.
  destruct (forallb (fun s => present (Str.int s)) (numeric_texts car_html))
    eqn:E.
  - left; eexists. apply Discovery.get_page_number_list_returns.
    intros s Hs. rewrite forallb_forall in E. specialize (E s Hs).
    destruct (Str.int s); [discriminate | discriminate E].
  - right. apply Pagination.forallb_false in E as [s [Hs E]].
    apply Discovery.page_number_loop_raises.
    exists s; split; [exact Hs |].
    destruct (Str.int s); [discriminate E | reflexivity].
Qed.

Lemma discover_cases (car_html : PageElement) :
  discover car_html = ([], Raises ValueError) \/
  exists m, discover car_html = ([Log INFO (Max_page_number_is m)], Returns m).
Proof.
  unfold discover.
  destruct (get_page_number_list_cases car_html) as [[l H] | H]; rewrite H.
  - right; eexists; reflexivity.
  - left; reflexivity.
Qed.

(** The run up to the end of the page loop: the first fetch exits, or
    fails, or meets a body the parser rejects, or discovery raises, or
    the page loop runs on the pages 1 to the number discovered. *)
Lemma run_result_cases (site : string -> reply) :
  (exists e, run_result site =
             ([Get base_url; Log ERROR (HTTP_error_occured e)], Exits 1)) \/
  (exists t e,
      (t = [] \/ t = [Log INFO (Opening_webpage base_url)]) /\
      run_result site = (Get base_url :: t, Raises e)) \/
  (exists r0 m,
      site base_url = Answer r0 /\ ok_status r0 = true /\
      discover (document r0) = ([Log INFO (Max_page_number_is m)], Returns m) /\
      run_result site =
      (Get base_url :: Log INFO (Opening_webpage base_url) ::
       Log INFO (Max_page_number_is m) ::
       fst (page_loop site (range 1 (m + 1)) []),
       snd (page_loop site (range 1 (m + 1)) []))).
Proof.
  destruct (Run.get_html_cases site None)
    as [[r0 [E [Sok H]]] | [[c [_ H]] | [[w [_ H]] | [c [_ H]]]]];
    cbn [url_of] in *.
  - right.
    destruct (discover_cases (document r0)) as [D | [m D]].
    + left; exists [Log INFO (Opening_webpage base_url)], ValueError.
      split; [right; reflexivity |].
      unfold run_result.
      rewrite (bind_returns _ _ _ _ H).
      cbn [fst snd].
      rewrite <- (Run.bind_assoc (get_page_number_list (document r0))
                    get_max_page_number
                    (fun m => page_loop site (range 1 (m + 1)) [])).
      fold (discover (document r0)). rewrite D. reflexivity.
    + right; exists r0, m; repeat split; auto.
      apply (Run.run_result_discovered site r0 _ m E Sok D).
  - left; exists (HTTPError c). unfold run_result.
    rewrite (bind_exits _ _ _ _ H). reflexivity.
  - right; left; exists [], (RequestException w); split; [left; reflexivity |].
    unfold run_result. rewrite (bind_raises _ _ _ _ H). reflexivity.
  - right; left.
    exists [Log INFO (Opening_webpage base_url)], ParserRejectedMarkup.
    split; [right; reflexivity |].
    unfold run_result. rewrite (bind_raises _ _ _ _ H). reflexivity.
Qed.

(** What [main] adds to the events of the run up to the end of the page
    loop holds no request, no pause and no extraction. *)
Lemma main_extra (site : string -> reply) (now : string) :
  exists extra,
    fst (main site now) = fst (run_result site) ++ extra /\
    requests extra = [] /\ pauses extra = [] /\ completed extra = [] /\
    appended extra = [].
Proof.
  destruct (main_cases site now)
    as [[code [R M]] | [[e0 [R M]] | [[R M] | [[d [l [rows [R [Hr M]]]]] |
        [d [l [rows [R [Hr M]]]]]]]]]; rewrite M; cbn [fst].
  - exists []; rewrite app_nil_r; auto.
  - eexists; split; [reflexivity | auto].
  - eexists; split; [reflexivity | auto].
  - destruct (rows_no_request rows Hr) as [R1 [R2 [R3 R4]]].
    eexists; split; [reflexivity |].
    change (Open (filename_of now) :: ?x) with ([Open (filename_of now)] ++ x).
    rewrite !requests_app, !pauses_app, !completed_app, !appended_app,
      R1, R2, R3, R4; auto.
  - destruct (rows_no_request rows Hr) as [R1 [R2 [R3 R4]]].
    eexists; split; [reflexivity |].
    change (Open (filename_of now) :: ?x) with ([Open (filename_of now)] ++ x).
    rewrite !requests_app, !pauses_app, !completed_app, !appended_app,
      R1, R2, R3, R4; auto.
Qed.

Lemma range_from_one (m : Z) : range 1 (m + 1) = map Z.of_nat (seq 1 (Z.to_nat m)).
Proof.
  unfold range. replace (m + 1 - 1) with m by lia.
  rewrite <- seq_shift, map_map. apply map_ext; intros k; lia.
Qed.

Lemma firstn_of_seq (k : nat) :
  forall start len, firstn k (seq start len) = seq start (Nat.min k len).
Proof.
  induction k as [|k IH]; intros start [|len]; simpl; auto.
  rewrite IH; reflexivity.
Qed.

Lemma firstn_pages (k : nat) (m : Z) :
  (k <= Z.to_nat m)%nat ->
  firstn k (range 1 (m + 1)) = map Z.of_nat (seq 1 k).
Proof.
  intros H; rewrite range_from_one, firstn_map, firstn_of_seq.
  rewrite Nat.min_l by exact H. reflexivity.
Qed.

Lemma length_pages (m : Z) : List.length (range 1 (m + 1)) = Z.to_nat m.
Proof. rewrite range_from_one, length_map, length_seq; reflexivity. Qed.

(** The requests, the pages completed and the pauses of a run. *)
Lemma main_trace (site : string -> reply) (now : string) :
  let t := fst (main site now) in
  exists kr kc,
    (kc <= kr <= S kc)%nat /\
    requests t = base_url :: map page_url (seq 1 kr) /\
    completed t = map Z.of_nat (seq 1 kc) /\
    pauses t = repeat 5 kc /\
    (forall r0 t1 m,
        site base_url = Answer r0 ->
        discover (document r0) = (t1, Returns m) ->
        (kr <= Z.to_nat m)%nat /\
        (forall t' l, run_result site = (t', Returns l) -> kc = Z.to_nat m)).
Proof.
  intros t; subst t.
  destruct (main_extra site now) as [extra [M [X1 [X2 [X3 _]]]]].
  rewrite M, requests_app, completed_app, pauses_app, X1, X2, X3, !app_nil_r.
  destruct (run_result_cases site)
    as [[e R] | [[t0 [e [Ht0 R]]] | [r0 [m [E [Sok [D R]]]]]]];
    rewrite R; cbn [fst].
  - exists 0%nat, 0%nat.
    split; [lia | split; [reflexivity | split; [reflexivity |
      split; [reflexivity |]]]].
    intros r0' t1 m' E' D'; split; [lia | intros t' l H; discriminate].
  - exists 0%nat, 0%nat. destruct Ht0 as [-> | ->].
    + split; [lia | split; [reflexivity | split; [reflexivity |
        split; [reflexivity |]]]].
      intros r0' t1 m' E' D'; split; [lia | intros t' l H; discriminate].
    + split; [lia | split; [reflexivity | split; [reflexivity |
        split; [reflexivity |]]]].
      intros r0' t1 m' E' D'; split; [lia | intros t' l H; discriminate].
  - destruct (page_loop_trace site (range 1 (m + 1)) [])
      as [kr [kc [Hk [Hlen [Hr [Hc [Hp Hret]]]]]]].
    rewrite length_pages in Hlen, Hret.
    rewrite firstn_pages in Hr by lia.
    rewrite firstn_pages in Hc by lia.
    exists kr, kc.
    change (Get base_url :: Log INFO (Opening_webpage base_url) ::
            Log INFO (Max_page_number_is m) :: ?x)
      with ([Get base_url; Log INFO (Opening_webpage base_url);
             Log INFO (Max_page_number_is m)] ++ x).
    rewrite requests_app, completed_app, pauses_app, Hr, Hc, Hp, map_map.
    split; [lia | split; [reflexivity | split; [reflexivity |
      split; [reflexivity |]]]].
    intros r0' t1 m' E' D'. rewrite E in E'; injection E' as <-.
    rewrite D in D'; injection D' as _ <-.
    split; [exact Hlen |].
    intros t' l H. apply (Hret l). injection H as _ H. exact H.
Qed.

(** The first request of a run goes to the base URL; the following ones
    go to the pages 1, 2, 3, ... in this order, one request per page,
    none twice.  When the first answer came and discovery returned [m],
    no page beyond [m] is requested, and a run whose page loop returned
    requested every page from 1 to [m]. *)
Theorem requests_in_order (site : string -> reply) (now : string) :
  exists k,
    requests (fst (main site now)) = base_url :: map page_url (seq 1 k) /\
    forall r0 t1 m,
      site base_url = Answer r0 ->
      discover (document r0) = (t1, Returns m) ->
      (k <= Z.to_nat m)%nat /\
      (forall t l, run_result site = (t, Returns l) -> k = Z.to_nat m).
Proof.
  destruct (main_trace site now) as [kr [kc [Hk [Hr [_ [_ Hm]]]]]].
  exists kr; split; [exact Hr |].
  intros r0 t1 m E D; destruct (Hm r0 t1 m E D) as [Hle Hret].
  split; [exact Hle |].
  intros t l R; specialize (Hret t l R); lia.
Qed.

(** The pages of a run are completed in the order 1, 2, 3, ... and every
    page completed is followed by one pause of 5 seconds, the last page
    included; no other pause is taken.  At most one page is requested
    without being completed, and a run whose page loop returned after
    discovery returned [m] completed [m] pages. *)
Theorem pause_after_each_page (site : string -> reply) (now : string) :
  let t := fst (main site now) in
  exists k,
    completed t = map Z.of_nat (seq 1 k) /\
    pauses t = repeat 5 k /\
    (List.length (requests t) = S k \/ List.length (requests t) = S (S k)) /\
    forall r0 t1 m,
      site base_url = Answer r0 ->
      discover (document r0) = (t1, Returns m) ->
      forall t' l, run_result site = (t', Returns l) -> k = Z.to_nat m.
Proof.
  destruct (main_trace site now) as [kr [kc [Hk [Hr [Hc [Hp Hm]]]]]].
  exists kc; split; [exact Hc | split; [exact Hp | split]].
  - rewrite Hr; cbn [List.length]; rewrite length_map, length_seq. lia.
  - intros r0 t1 m E D; apply (Hm r0 t1 m E D).
Qed.

(** When the page loop returns, the list of records it hands to the last
    statement of [main] is the list of the records logged as appended,
    in the same order; [main] logs no other record afterwards. *)
Theorem appended_is_result (site : string -> reply) t l :
  run_result site = (t, Returns l) ->
  appended t = l /\ forall now, appended (fst (main site now)) = l.
Proof.
  intros H.
  assert (A : appended t = l).
  { destruct (run_result_cases site)
      as [[e R] | [[t0 [e [Ht0 R]]] | [r0 [m [E [Sok [D R]]]]]]];
      rewrite R in H; try discriminate.
    injection H as <- H.
    apply page_loop_appended in H. rewrite H; reflexivity. }
  split; [exact A |].
  intros now; destruct (main_extra site now) as [extra [M [_ [_ [_ X]]]]].
  rewrite M, appended_app, X, app_nil_r, H; exact A.
Qed.

Lemma appended_is_result_witness :
  let l := map record_of [Samples.myvi_a; Samples.myvi_b; Samples.myvi_c;
                          Samples.myvi_d; Samples.myvi_e] in
  let t := fst (run_result Samples.two_pages) in
  run_result Samples.two_pages = (t, Returns l) /\
  appended t = l /\
  forall now, appended (fst (main Samples.two_pages now)) = l.
Proof.
  assert (H : run_result Samples.two_pages =
              (fst (run_result Samples.two_pages),
               Returns (map record_of [Samples.myvi_a; Samples.myvi_b;
                                       Samples.myvi_c; Samples.myvi_d;
                                       Samples.myvi_e]))) by reflexivity.
  split; [exact H | exact (appended_is_result Samples.two_pages _ _ H)].
Defined.

(** When discovery returns a number below 1, the page loop has no turn:
    the run makes its first request only, fetches no listing page, takes
    no pause, logs that no car data was collected and returns. *)
Theorem no_page_to_fetch (site : string -> reply) (now : string) r0 t1 m :
  site base_url = Answer r0 -> ok_status r0 = true ->
  discover (document r0) = (t1, Returns m) -> m <= 0 ->
  main site now =
  ([Get base_url; Log INFO (Opening_webpage base_url)] ++ t1 ++
   [Log ERROR No_car_data_collected], Returns tt).
Proof.
  intros E Sok D Hm.
  pose proof (Run.run_result_discovered site r0 t1 m E Sok D) as R.
  assert (P : range 1 (m + 1) = []).
  { unfold range. replace (Z.to_nat (m + 1 - 1)) with 0%nat by lia.
    reflexivity. }
  rewrite P in R; cbn [page_loop ret fst snd] in R.
  rewrite app_nil_r in R.
  rewrite (Run.main_after_loop site now _ _ R).
  cbn [persist logging_error emit fst snd try_except].
  rewrite <- app_assoc; reflexivity.
Qed.

Lemma no_page_to_fetch_witness :
  discover (Samples.page ["0"]%string [Samples.myvi_a]) =
  ([Log INFO (Max_page_number_is 0)], Returns 0) /\
  main Samples.zero_button_site Samples.now =
  ([Get base_url; Log INFO (Opening_webpage base_url);
    Log INFO (Max_page_number_is 0); Log ERROR No_car_data_collected],
   Returns tt).
Proof.
  split; [reflexivity |].
  apply (no_page_to_fetch Samples.zero_button_site Samples.now
           {| status_code := 200;
              document := Samples.page ["0"]%string [Samples.myvi_a] |}
           [Log INFO (Max_page_number_is 0)] 0);
    [reflexivity | reflexivity | reflexivity | lia].
Defined.

Lemma flat_map_records (f : Z -> list PageElement) (pages : list Z) :
  flat_map (fun i => map record_of (f i)) pages =
  map record_of (flat_map f pages).
Proof.
  induction pages as [|i rest IH]; simpl; [reflexivity |].
  rewrite IH, map_app; reflexivity.
Qed.

(** A run over any number of pages.  When the first answer came,
    discovery returned [m], every page from 1 to [m] is served and shows
    only listing blocks with their title, price, instalment and container
    of details, and at least one block is shown, the run returns and
    writes one file: the header row with the six column names and one
    row per listing block, page after page in ascending order and each
    page in document order. *)
Theorem run_writes_all_pages (site : string -> reply) (now : string) r0 t1 m :
  site base_url = Answer r0 -> ok_status r0 = true ->
  discover (document r0) = (t1, Returns m) ->
  (forall i, 1 <= i <= m ->
             exists response,
               site (url_of (Some i)) = Answer response /\
               ok_status response = true /\
               Forall (fun item => complete item = true)
                      (get_car_list (document response))) ->
  let items := flat_map (listings_of site) (range 1 (m + 1)) in
  items <> [] ->
  snd (main site now) = Returns tt /\
  output (fst (main site now)) (filename_of now)
         (map (fun item => map snd (record_of item)) items).
Proof.
  intros E Sok D Hpages items Hne.
  assert (Hitems : Forall (fun item => complete item = true) items).
  { apply Forall_forall; intros item Hin.
    apply in_flat_map in Hin as [i [Hi Hin]].
    apply Run.range_In in Hi.
    destruct (Hpages i) as [response [Ei [_ Hall]]]; [lia |].
    unfold listings_of in Hin; rewrite Ei in Hin.
    rewrite Forall_forall in Hall; apply Hall, Hin. }
  assert (Hkeys : Forall (fun d => keys d = header) (map record_of items)).
  { apply Forall_map. eapply Forall_impl; [| exact Hitems].
    intros item Hc; apply (Run.complete_record item Hc). }
  pose proof (Run.run_result_discovered site r0 t1 m E Sok D) as R.
  destruct (Run.page_loop_returns site (range 1 (m + 1))) with (acc := @nil dict)
    as [t Ht].
  { intros i Hi; apply Run.range_In in Hi.
    destruct (Hpages i) as [response [Ei [Si Hall]]]; [lia |].
    exists response; repeat split; auto.
    eapply Forall_impl; [| exact Hall].
    intros item Hc; apply (Run.complete_record item Hc). }
  rewrite Ht in R; cbn [fst snd app] in R.
  rewrite flat_map_records in R. fold items in R.
  destruct (Run.persist_full (filename_of now) (map record_of items))
    as [Pr Pt]; [destruct items; [congruence | discriminate] | exact Hkeys |].
  rewrite (Run.main_after_loop site now _ _ R), try_except_unfold.
  cbn [fst snd]; rewrite Pr; cbn [fst snd].
  split; [reflexivity |].
  unfold output. rewrite filter_app, Pt.
  pose proof (silent_filter file_event (run_result site)) as F.
  rewrite R in F; cbn [fst] in F.
  rewrite F by (rewrite <- R; apply Run.run_result_silent; intros; reflexivity).
  rewrite !map_map; reflexivity.
Qed.

Lemma run_writes_all_pages_witness :
  let items := [Samples.myvi_a; Samples.myvi_b; Samples.myvi_c;
                Samples.myvi_d; Samples.myvi_e] in
  flat_map (listings_of Samples.two_pages) (range 1 (2 + 1)) = items /\
  snd (main Samples.two_pages Samples.now) = Returns tt /\
  output (fst (main Samples.two_pages Samples.now)) (filename_of Samples.now)
         (map (fun item => map snd (record_of item)) items).
Proof.
  split; [reflexivity |].
  apply (run_writes_all_pages Samples.two_pages Samples.now
           {| status_code := 200;
              document := Samples.page ["1"; "2"]%string
                            [Samples.myvi_a; Samples.myvi_b; Samples.myvi_c] |}
           [Log INFO (Max_page_number_is 2)] 2);
    try reflexivity.
  - intros i Hi.
    assert (Hc : i = 1 \/ i = 2) by lia.
    destruct Hc as [-> | ->]; eexists; repeat split; try reflexivity;
      repeat constructor.
  - discriminate.
Defined.

End Runs.
